(** * Banking API: the in-memory store, the banking service and the HTTP routes

    A shallow embedding of [app/database/db.py], [app/database/seed_data.py],
    [app/services/banking_service.py], [app/models/schemas.py] and
    [app/routers/routes.py], and the properties of transfers, account
    creation and history queries stated over it.

    Modelling conventions.
    - Money.  The program keeps balances and amounts as Python floats.  Two
      models of them are used.  In the exact model (the top level of this
      file) an amount is a whole number of hundredths ([Z]), so [1000.00]
      is [100000]: it serves for the order of the checks, the exceptions,
      the log, the lock and the invariants of the store, which do not
      depend on how a sum is rounded; a request whose amount has more than
      two decimals, which the schemas reject, is not represented in it.  In
      [Module Double] the balances are IEEE 754 binary64 numbers and [+=]
      rounds as the program does: it serves for what a transfer stores as
      balances and for the sum of the balances.
    - A Python dict used as a map is a [gmap]; a missing key is [None].
    - A Python [str] is the string of the bytes of its UTF-8 encoding.
    - An account is a dict with string keys.  Two shapes occur in the source:
      the seed data stores the identifier under the key ["id"], while
      [Database.create_account] stores it under ["account_id"].  The record
      [account] has one optional field for each of the two keys.
    - Methods that read or mutate the [Database] object are computations in
      the monad [M]: a state monad over the object with Python exceptions.
      A raised exception keeps the state reached so far (nothing is rolled
      back).
    - [uuid.uuid4()] and [datetime.now()] are inputs of the methods that
      call them.
    - The [threading.Lock] is followed through a chronological trace of
      [Acquire]/[Release] events and of the writes to the shared maps. *)

From stdpp Require Import base option list gmap fin_maps strings.
From Stdlib Require Import ZArith Lia.
From Stdlib Require Import Floats.PrimFloat Floats.SpecFloat Floats.FloatOps.

(** A decimal literal such as [0.06] stands for the nearest double, as in
    Python. *)
#[local] Set Warnings "-inexact-float".

Local Open Scope Z_scope.

(** ** Data model *)

(** An amount of money of the exact model, in hundredths of the currency
    unit. *)
Definition amount : Type := Z.

(** [1_000_000], the upper bound of the request schemas, in hundredths. *)
Definition MAX_AMOUNT : amount := 1000000 * 100.

(** A customer of [seed_data.CUSTOMERS]. *)
Record Customer : Type := mkCustomer {
  c_customer_id : Z;
  c_name : string;
  c_email : string
}.

(** An account dict: keys ["id"], ["account_id"], ["customer_id"],
    ["balance"]. *)
Record account : Type := mkAccount {
  acc_id : option string;
  acc_account_id : option string;
  acc_customer_id : Z;
  acc_balance : amount
}.

(** A naive [datetime]. *)
Record datetime : Type := mkDatetime {
  dt_year : Z; dt_month : Z; dt_day : Z;
  dt_hour : Z; dt_minute : Z; dt_second : Z; dt_microsecond : Z
}.

(** [schemas.Transfer]. *)
Record Transfer : Type := mkTransfer {
  transaction_id : string;
  from_account_id : string;
  to_account_id : string;
  transfer_amount : amount;
  timestamp : datetime
}.

(** [schemas.Account], the response model of account creation. *)
Record Account : Type := mkAccountModel {
  account_id : string;
  customer_id : Z;
  balance : amount
}.

(** [schemas.AccountCreate] and [schemas.TransferRequest], as received
    (before validation). *)
Record AccountCreate : Type := mkAccountCreate {
  ac_customer_id : Z;
  ac_initial_deposit : amount
}.

Record TransferRequest : Type := mkTransferRequest {
  tr_from_account_id : string;
  tr_to_account_id : string;
  tr_transfer_amount : amount
}.

(** A version-4 UUID, given by its 32 hexadecimal digits ([uuid4().hex]). *)
Record UUID : Type := mkUUID { hex : string }.

(** [str(u)]: the digits in groups of 8-4-4-4-12. *)
Definition uuid_str (u : UUID) : string :=
  String.substring 0 8 (hex u) +:+ "-" +:+ String.substring 8 4 (hex u)
  +:+ "-" +:+ String.substring 12 4 (hex u)
  +:+ "-" +:+ String.substring 16 4 (hex u)
  +:+ "-" +:+ String.substring 20 12 (hex u).

(** The exceptions of [app/utils/exceptions.py], Python's [KeyError] and the
    validation error of the request schemas. *)
Inductive exn : Type :=
  | AccountNotFoundException
  | CustomerNotFoundException
  | InsufficientFundsException
  | SelfTransferException
  | KeyError (key : string)
  | ValidationError.

(** What happens to the lock and to the shared maps, in order. *)
Inductive event : Type :=
  | Acquire
  | Release
  | WriteAccounts (key : string)
  | WriteBalance (key : string)
  | AppendTransfers.

(** The [Database] object. *)
Record Database : Type := mkDatabase {
  customers : gmap Z Customer;
  accounts : gmap string account;
  transfers : list Transfer;
  trace : list event
}.

#[global] Instance Customer_eq_dec : EqDecision Customer.
Proof. solve_decision. Defined.
#[global] Instance account_eq_dec : EqDecision account.
Proof. solve_decision. Defined.
#[global] Instance datetime_eq_dec : EqDecision datetime.
Proof. solve_decision. Defined.
#[global] Instance Transfer_eq_dec : EqDecision Transfer.
Proof. solve_decision. Defined.
#[global] Instance exn_eq_dec : EqDecision exn.
Proof. solve_decision. Defined.
#[global] Instance event_eq_dec : EqDecision event.
Proof. solve_decision. Defined.

(** ** Seed data ([app/database/seed_data.py]) *)

Definition CUSTOMERS : gmap Z Customer :=
  <[1 := mkCustomer 1 "Arisha Barron" "Arisha@dummy.com"]>
  (<[2 := mkCustomer 2 "Branden Gibson" "Branden@dummy.com"]>
  (<[3 := mkCustomer 3 "Rhonda Church" "Rhonda@dummy.com"]>
  (<[4 := mkCustomer 4 "Georgina Hazel" "Georgina@dummy.com"]> ∅))).

Definition seed_account (i : string) (c : Z) (b : amount) : account :=
  {| acc_id := Some i; acc_account_id := None;
     acc_customer_id := c; acc_balance := b |}.

Definition ACCOUNTS : gmap string account :=
  <["acc1-1234" := seed_account "acc1-1234" 1 100000]>
  (<["acc2-5678" := seed_account "acc2-5678" 2 50000]>
  (<["acc3-9012" := seed_account "acc3-9012" 3 75050]>
  (<["acc4-3456" := seed_account "acc4-3456" 4 200075]>
  (<["acc5-7890" := seed_account "acc5-7890" 1 25000]> ∅)))).

Definition TRANSFERS : list Transfer :=
  [ {| transaction_id := "txn1-1111";
       from_account_id := "acc1-1234";
       to_account_id := "acc2-5678";
       transfer_amount := 20000;
       timestamp := mkDatetime 2025 3 23 10 0 0 0 |} ].

(** ** The monad of methods *)

Definition M (A : Type) : Type := Database → (exn + A) * Database.

#[global] Instance M_ret : MRet M := λ A a s, (inr a, s).
#[global] Instance M_bind : MBind M := λ A B f m s,
  match m s with
  | (inr a, s') => f a s'
  | (inl e, s') => (inl e, s')
  end.

Definition raise {A : Type} (e : exn) : M A := λ s, (inl e, s).
Definition gets {A : Type} (f : Database → A) : M A := λ s, (inr (f s), s).
Definition modify (f : Database → Database) : M unit := λ s, (inr (), f s).

(** Lift a pure computation that may raise. *)
Definition lift {A : Type} (r : exn + A) : M A := λ s, (r, s).

Definition emit (e : event) (s : Database) : Database :=
  {| customers := customers s; accounts := accounts s;
     transfers := transfers s; trace := trace s ++ [e] |}.

(** [with self.lock: body].  The lock is released when the block is left,
    also by an exception.  The model is sequential and the source never
    nests two such blocks, so acquiring never blocks. *)
Definition with_lock {A : Type} (body : M A) : M A := λ s,
  let '(r, s') := body (emit Acquire s) in (r, emit Release s').

(** The three writes to shared state that the methods perform. *)

(** [self.accounts[key] = acc] *)
Definition accounts_setitem (key : string) (acc : account) : M unit :=
  modify (λ s,
    {| customers := customers s; accounts := <[key := acc]> (accounts s);
       transfers := transfers s; trace := trace s ++ [WriteAccounts key] |}).

(** The dict [acc] once [acc["balance"]] holds [b]. *)
Definition with_balance (acc : account) (b : amount) : account :=
  {| acc_id := acc_id acc; acc_account_id := acc_account_id acc;
     acc_customer_id := acc_customer_id acc; acc_balance := b |}.

(** [acc["balance"] += delta] on the dict object stored under [key]: the
    object is shared with [self.accounts], so the map sees the new balance.
    The sum is exact here; [Double.balance_iadd] rounds it. *)
Definition balance_iadd (key : string) (acc : account) (delta : amount) : M unit :=
  modify (λ s,
    {| customers := customers s;
       accounts := <[key := with_balance acc (acc_balance acc + delta)]>
                   (accounts s);
       transfers := transfers s; trace := trace s ++ [WriteBalance key] |}).

(** [self.transfers.append(t)] *)
Definition transfers_append (t : Transfer) : M unit :=
  modify (λ s,
    {| customers := customers s; accounts := accounts s;
       transfers := transfers s ++ [t];
       trace := trace s ++ [AppendTransfers] |}).

(** [acc["id"]] on an account dict. *)
Definition getitem_id (acc : account) : exn + string :=
  match acc_id acc with
  | Some v => inr v
  | None => inl (KeyError "id")
  end.

(** [[f(x) for x in l]] where [f] may raise: the first exception ends the
    comprehension. *)
Fixpoint comprehension {A B : Type} (f : A → exn + B) (l : list A)
    : exn + list B :=
  match l with
  | [] => inr []
  | x :: l' =>
      match f x with
      | inl e => inl e
      | inr y =>
          match comprehension f l' with
          | inl e => inl e
          | inr ys => inr (y :: ys)
          end
      end
  end.

(** [f"acc-{u.hex[:8]}"] *)
Definition new_account_id (u : UUID) : string :=
  "acc-" +:+ String.substring 0 8 (hex u).

(** The dict that [create_account] builds. *)
Definition new_account (account_id : string) (customer_id : Z)
    (initial_deposit : amount) : account :=
  {| acc_id := None; acc_account_id := Some account_id;
     acc_customer_id := customer_id; acc_balance := initial_deposit |}.

(** ** [Database] ([app/database/db.py]) *)

Module Db.

(** [Database()] *)
Definition init : Database :=
  {| customers := CUSTOMERS; accounts := ACCOUNTS;
     transfers := TRANSFERS; trace := [] |}.

Definition get_customer (customer_id : Z) : M (option Customer) :=
  gets (λ s, customers s !! customer_id).

Definition get_account (account_id : string) : M (option account) :=
  gets (λ s, accounts s !! account_id).

(** The accounts of a customer.  Python lists them in insertion order, the
    model in the order of [map_to_list]; no caller depends on the order. *)
Definition get_accounts_by_customer (customer_id : Z) : M (list account) :=
  gets (λ s, filter (λ acc, acc_customer_id acc = customer_id)
               (snd <$> map_to_list (accounts s))).

(** [u] is the value of [uuid.uuid4()]. *)
Definition create_account (u : UUID) (customer_id : Z)
    (initial_deposit : amount) : M account :=
  with_lock (
    let account_id := new_account_id u in
    let account := new_account account_id customer_id initial_deposit in
    accounts_setitem account_id account;;
    mret account).

Definition get_balance (account_id : string) : M amount :=
  account ← get_account account_id;
  match account with
  | None => raise AccountNotFoundException
  | Some acc => mret (acc_balance acc)
  end.

(** [if account:] holds for every dict that is stored, none being empty. *)
Definition update_balance (account_id : string) (amount : amount) : M unit :=
  account ← gets (λ s, accounts s !! account_id);
  match account with
  | Some acc => balance_iadd account_id acc amount
  | None => mret ()
  end.

Definition add_transfer (transfer : Transfer) : M unit :=
  with_lock (transfers_append transfer).

Definition involves (account_id : string) (t : Transfer) : Prop :=
  from_account_id t = account_id ∨ to_account_id t = account_id.

Definition get_transfers_by_account (account_id : string) : M (list Transfer) :=
  known ← gets (λ s, bool_decide (is_Some (accounts s !! account_id)));
  if known : bool then
    gets (λ s, filter (involves account_id) (transfers s))
  else raise AccountNotFoundException.

Definition get_transfers_by_customer (customer_id : Z) : M (list Transfer) :=
  known ← gets (λ s, bool_decide (is_Some (customers s !! customer_id)));
  if known : bool then
    accs ← get_accounts_by_customer customer_id;
    customer_accounts ← lift (comprehension getitem_id accs);
    gets (λ s, filter (λ t, from_account_id t ∈ customer_accounts
                            ∨ to_account_id t ∈ customer_accounts)
                 (transfers s))
  else raise AccountNotFoundException.

End Db.

(** ** [BankingService] ([app/services/banking_service.py]) *)

Module BankingService.

(** [if not self.db.get_customer(customer_id)]: a customer dict has three
    keys, so it is falsy only when it is [None]. *)
Definition create_account (u : UUID) (customer_id : Z)
    (initial_deposit : amount) : M account :=
  customer ← Db.get_customer customer_id;
  match customer with
  | None => raise CustomerNotFoundException
  | Some _ => Db.create_account u customer_id initial_deposit
  end.

Definition get_balance (account_id : string) : M amount :=
  Db.get_balance account_id.

Definition get_transfers (account_id : string) : M (list Transfer) :=
  Db.get_transfers_by_account account_id.

(** [u] is the value of [uuid.uuid4()] and [now] the value of
    [datetime.now()].  An account dict always has keys, so [not from_account]
    holds for [None] only; [from_account == to_account] compares the two
    dicts key by key. *)
Definition execute_transfer (u : UUID) (now : datetime)
    (from_account_id to_account_id : string) (transfer_amount : amount)
    : M Transfer :=
  from_account ← Db.get_account from_account_id;
  to_account ← Db.get_account to_account_id;
  match from_account with
  | None => raise AccountNotFoundException
  | Some from_account =>
      match to_account with
      | None => raise AccountNotFoundException
      | Some to_account =>
          if decide (from_account = to_account) then
            raise SelfTransferException
          else if decide (acc_balance from_account < transfer_amount) then
            raise InsufficientFundsException
          else
            Db.update_balance from_account_id (- transfer_amount);;
            Db.update_balance to_account_id transfer_amount;;
            let transfer :=
              mkTransfer (uuid_str u) from_account_id to_account_id
                transfer_amount now in
            Db.add_transfer transfer;;
            mret transfer
      end
  end.

End BankingService.

(** ** Request schemas ([app/models/schemas.py]) *)

(** [Field(gt=0, le=1_000_000)].  The validator of at most two decimal
    places has nothing to reject on an amount counted in hundredths: the
    requests it rejects are not represented. *)
Definition amount_in_range (v : amount) : bool :=
  bool_decide (0 < v) && bool_decide (v ≤ MAX_AMOUNT).

Definition validate_AccountCreate (req : AccountCreate) : exn + AccountCreate :=
  if amount_in_range (ac_initial_deposit req) then inr req
  else inl ValidationError.

(** [len(s)] of a Python [str]: its number of characters.  A string is kept
    as the bytes of its UTF-8 encoding, in which each character has exactly
    one byte that is not a continuation byte ([10xxxxxx]). *)
Definition is_continuation_byte (c : Ascii.ascii) : bool :=
  match c with
  | Ascii.Ascii _ _ _ _ _ _ b6 b7 => b7 && negb b6
  end.

Fixpoint str_len (s : string) : nat :=
  match s with
  | EmptyString => 0
  | String c s' =>
      ((if is_continuation_byte c then 0 else 1) + str_len s')%nat
  end.

(** [Field(..., max_length=36)] on both identifiers: at most 36
    characters. *)
Definition validate_TransferRequest (req : TransferRequest)
    : exn + TransferRequest :=
  if bool_decide (str_len (tr_from_account_id req) ≤ 36)%nat
     && bool_decide (str_len (tr_to_account_id req) ≤ 36)%nat
     && amount_in_range (tr_transfer_amount req)
  then inr req
  else inl ValidationError.

(** The [Account] model built from the items of a dict: the three fields
    are required, other keys are ignored. *)
Definition Account_of_dict (d : account) : exn + Account :=
  match acc_account_id d with
  | Some i => inr {| account_id := i; customer_id := acc_customer_id d;
                     balance := acc_balance d |}
  | None => inl ValidationError
  end.

(** ** Routes ([app/routers/routes.py]) *)

(** A route takes the request body as received, validates it against its
    schema and returns the [data] of the response; the envelope around it is
    left out. *)
Module Routes.

Definition create_account (u : UUID) (body : AccountCreate) : M Account :=
  account ← lift (validate_AccountCreate body);
  created_account ←
    BankingService.create_account u (ac_customer_id account)
      (ac_initial_deposit account);
  lift (Account_of_dict created_account).

Definition transfer_amount (u : UUID) (now : datetime)
    (body : TransferRequest) : M Transfer :=
  transfer ← lift (validate_TransferRequest body);
  if decide (tr_from_account_id transfer = tr_to_account_id transfer) then
    raise SelfTransferException
  else
    BankingService.execute_transfer u now (tr_from_account_id transfer)
      (tr_to_account_id transfer) (tr_transfer_amount transfer).

Definition get_balance (account_id : string) : M (string * amount) :=
  balance ← BankingService.get_balance account_id;
  mret (account_id, balance).

Definition get_transfer_history (account_id : string) : M (list Transfer) :=
  BankingService.get_transfers account_id.

End Routes.

(** ** Observations on a store *)

(** The balance stored under an identifier. *)
Definition balance_of (s : Database) (k : string) : option amount :=
  acc_balance <$> accounts s !! k.

(** The sum of the balances of all accounts. *)
Definition total_balance (m : gmap string account) : amount :=
  map_fold (λ _ acc n, acc_balance acc + n) 0 m.

(** The lock discipline on a chronological trace: every write happens
    between an [Acquire] and the matching [Release]. *)
Fixpoint guarded_from (held : bool) (tr : list event) : bool :=
  match tr with
  | [] => true
  | Acquire :: tr' => guarded_from true tr'
  | Release :: tr' => guarded_from false tr'
  | (WriteAccounts _ | WriteBalance _ | AppendTransfers) :: tr' =>
      held && guarded_from held tr'
  end.

Definition lock_discipline (tr : list event) : bool := guarded_from false tr.

(** The events a call added to the trace. *)
Definition events_since (s s' : Database) : list event :=
  drop (length (trace s)) (trace s').

(** Each stored dict carries the key it is stored under as its identifier. *)
Definition ident (acc : account) : option string :=
  match acc_account_id acc with
  | Some i => Some i
  | None => acc_id acc
  end.

Definition keyed (m : gmap string account) : Prop :=
  ∀ k acc, m !! k = Some acc → ident acc = Some k.

(** The store after a successful transfer of [a] from [f] to [t]. *)
Definition transferred (s : Database) (f t : string) (fa ta : account)
    (a : amount) (tr : Transfer) : Database :=
  {| customers := customers s;
     accounts := <[t := with_balance ta (acc_balance ta + a)]>
                 (<[f := with_balance fa (acc_balance fa + - a)]> (accounts s));
     transfers := transfers s ++ [tr];
     trace := trace s ++ [WriteBalance f; WriteBalance t; Acquire;
                          AppendTransfers; Release] |}.

(** The store after [create_account] stored [acc] under [k]. *)
Definition created (s : Database) (k : string) (acc : account) : Database :=
  {| customers := customers s;
     accounts := <[k := acc]> (accounts s);
     transfers := transfers s;
     trace := trace s ++ [Acquire; WriteAccounts k; Release] |}.


(** [k] names an account of customer [c]. *)
Definition owns (m : gmap string account) (c : Z) (k : string) : Prop :=
  acc_customer_id <$> m !! k = Some c.

#[global] Instance owns_dec m c k : Decision (owns m c k).
Proof. unfold owns. apply _. Defined.

(** The transfers of the log whose sender or receiver is an account of
    customer [c]: what [get_transfers_by_customer] is to return. *)
Definition customer_transfers (s : Database) (c : Z) : list Transfer :=
  filter (λ t, owns (accounts s) c (from_account_id t)
               ∨ owns (accounts s) c (to_account_id t))
    (transfers s).

(** ** The store and the service on double-precision numbers *)

(** The methods that compute with balances, with [balance] and
    [transfer_amount] as the IEEE 754 binary64 numbers that Python's [float]
    is: [+=] rounds to the nearest double, [<] and [==] are the comparisons
    of doubles.  Everything else is as in the exact model above. *)
Module Double.

(** An account dict with a [float] under ["balance"]. *)
Record account : Type := mkAccount {
  acc_id : option string;
  acc_account_id : option string;
  acc_customer_id : Z;
  acc_balance : float
}.

(** [schemas.Transfer] with a [float] amount. *)
Record Transfer : Type := mkTransfer {
  transaction_id : string;
  from_account_id : string;
  to_account_id : string;
  transfer_amount : float;
  timestamp : datetime
}.

Record Database : Type := mkDatabase {
  customers : gmap Z Customer;
  accounts : gmap string account;
  transfers : list Transfer;
  trace : list event
}.

Definition seed_account (i : string) (c : Z) (b : float) : account :=
  {| acc_id := Some i; acc_account_id := None;
     acc_customer_id := c; acc_balance := b |}.

(** [seed_data.ACCOUNTS]; the five balances are doubles exactly. *)
Definition ACCOUNTS : gmap string account :=
  <["acc1-1234" := seed_account "acc1-1234" 1 1000.00%float]>
  (<["acc2-5678" := seed_account "acc2-5678" 2 500.00%float]>
  (<["acc3-9012" := seed_account "acc3-9012" 3 750.50%float]>
  (<["acc4-3456" := seed_account "acc4-3456" 4 2000.75%float]>
  (<["acc5-7890" := seed_account "acc5-7890" 1 250.00%float]> ∅)))).

Definition TRANSFERS : list Transfer :=
  [ {| transaction_id := "txn1-1111";
       from_account_id := "acc1-1234";
       to_account_id := "acc2-5678";
       transfer_amount := 200.00%float;
       timestamp := mkDatetime 2025 3 23 10 0 0 0 |} ].

Definition M (A : Type) : Type := Database → (exn + A) * Database.

#[global] Instance M_ret : MRet M := λ A a s, (inr a, s).
#[global] Instance M_bind : MBind M := λ A B f m s,
  match m s with
  | (inr a, s') => f a s'
  | (inl e, s') => (inl e, s')
  end.

Definition raise {A : Type} (e : exn) : M A := λ s, (inl e, s).
Definition gets {A : Type} (f : Database → A) : M A := λ s, (inr (f s), s).
Definition modify (f : Database → Database) : M unit := λ s, (inr (), f s).

Definition emit (e : event) (s : Database) : Database :=
  {| customers := customers s; accounts := accounts s;
     transfers := transfers s; trace := trace s ++ [e] |}.

(** [with self.lock: body] *)
Definition with_lock {A : Type} (body : M A) : M A := λ s,
  let '(r, s') := body (emit Acquire s) in (r, emit Release s').

(** [self.accounts[key] = acc] *)
Definition accounts_setitem (key : string) (acc : account) : M unit :=
  modify (λ s,
    {| customers := customers s; accounts := <[key := acc]> (accounts s);
       transfers := transfers s; trace := trace s ++ [WriteAccounts key] |}).

(** The dict [acc] once [acc["balance"]] holds [b]. *)
Definition with_balance (acc : account) (b : float) : account :=
  {| acc_id := acc_id acc; acc_account_id := acc_account_id acc;
     acc_customer_id := acc_customer_id acc; acc_balance := b |}.

(** [acc["balance"] += delta] on the dict object stored under [key]: the
    sum of two doubles, rounded to the nearest double. *)
Definition balance_iadd (key : string) (acc : account) (delta : float) : M unit :=
  modify (λ s,
    {| customers := customers s;
       accounts := <[key := with_balance acc (acc_balance acc + delta)%float]>
                   (accounts s);
       transfers := transfers s; trace := trace s ++ [WriteBalance key] |}).

(** [self.transfers.append(t)] *)
Definition transfers_append (t : Transfer) : M unit :=
  modify (λ s,
    {| customers := customers s; accounts := accounts s;
       transfers := transfers s ++ [t];
       trace := trace s ++ [AppendTransfers] |}).

(** The dict that [create_account] builds. *)
Definition new_account (account_id : string) (customer_id : Z)
    (initial_deposit : float) : account :=
  {| acc_id := None; acc_account_id := Some account_id;
     acc_customer_id := customer_id; acc_balance := initial_deposit |}.

(** [a == b] on two account dicts.  Two dicts are equal when they have the
    same keys with equal values; floats are compared with the [==] of
    doubles.  [same_object] says that [a] and [b] are one object: Python
    then finds every value identical to itself and the dicts equal, also
    for a balance that is not a number. *)
Definition dict_eq (same_object : bool) (a b : account) : bool :=
  same_object
  || (bool_decide (acc_id a = acc_id b)
      && bool_decide (acc_account_id a = acc_account_id b)
      && bool_decide (acc_customer_id a = acc_customer_id b)
      && (acc_balance a =? acc_balance b)%float).

(** [Database] *)
Module Db.

(** [Database()] *)
Definition init : Database :=
  {| customers := CUSTOMERS; accounts := ACCOUNTS;
     transfers := TRANSFERS; trace := [] |}.

Definition get_customer (customer_id : Z) : M (option Customer) :=
  gets (λ s, customers s !! customer_id).

Definition get_account (account_id : string) : M (option account) :=
  gets (λ s, accounts s !! account_id).

Definition create_account (u : UUID) (customer_id : Z)
    (initial_deposit : float) : M account :=
  with_lock (
    let account_id := new_account_id u in
    let account := new_account account_id customer_id initial_deposit in
    accounts_setitem account_id account;;
    mret account).

Definition update_balance (account_id : string) (amount : float) : M unit :=
  account ← gets (λ s, accounts s !! account_id);
  match account with
  | Some acc => balance_iadd account_id acc amount
  | None => mret ()
  end.

Definition add_transfer (transfer : Transfer) : M unit :=
  with_lock (transfers_append transfer).

End Db.

(** [BankingService] *)
Module BankingService.

Definition create_account (u : UUID) (customer_id : Z)
    (initial_deposit : float) : M account :=
  customer ← Db.get_customer customer_id;
  match customer with
  | None => raise CustomerNotFoundException
  | Some _ => Db.create_account u customer_id initial_deposit
  end.

(** The two lookups return one object exactly when the two identifiers are
    equal. *)
Definition execute_transfer (u : UUID) (now : datetime)
    (from_account_id to_account_id : string) (transfer_amount : float)
    : M Transfer :=
  from_account ← Db.get_account from_account_id;
  to_account ← Db.get_account to_account_id;
  match from_account with
  | None => raise AccountNotFoundException
  | Some from_account =>
      match to_account with
      | None => raise AccountNotFoundException
      | Some to_account =>
          if dict_eq (bool_decide (from_account_id = to_account_id))
               from_account to_account then
            raise SelfTransferException
          else if (acc_balance from_account <? transfer_amount)%float then
            raise InsufficientFundsException
          else
            Db.update_balance from_account_id (- transfer_amount)%float;;
            Db.update_balance to_account_id transfer_amount;;
            let transfer :=
              mkTransfer (uuid_str u) from_account_id to_account_id
                transfer_amount now in
            Db.add_transfer transfer;;
            mret transfer
      end
  end.

End BankingService.

(** The balance stored under an identifier. *)
Definition balance_of (s : Database) (k : string) : option float :=
  acc_balance <$> accounts s !! k.

(** The exact value of a finite double, counted in units of [2^-1074] (every
    finite double is a whole number of them); [0] for the two zeros and for
    the values that are not finite. *)
Definition units (x : float) : Z :=
  match Prim2SF x with
  | S754_finite sign m e => (if sign then -1 else 1) * Z.pos m * 2 ^ (e + 1074)
  | S754_zero _ | S754_infinity _ | S754_nan => 0
  end.

(** The exact sum of the balances of all accounts, in units of [2^-1074]. *)
Definition total_units (m : gmap string account) : Z :=
  map_fold (λ _ acc n, units (acc_balance acc) + n) 0 m.

(** Each stored dict carries the key it is stored under as its identifier. *)
Definition ident (acc : account) : option string :=
  match acc_account_id acc with
  | Some i => Some i
  | None => acc_id acc
  end.

Definition keyed (m : gmap string account) : Prop :=
  ∀ k acc, m !! k = Some acc → ident acc = Some k.

(** The store after a transfer of [a] from [f] to [t] that returned. *)
Definition transferred (s : Database) (f t : string) (fa ta : account)
    (a : float) (tr : Transfer) : Database :=
  {| customers := customers s;
     accounts := <[t := with_balance ta (acc_balance ta + a)%float]>
                 (<[f := with_balance fa (acc_balance fa + - a)%float]>
                    (accounts s));
     transfers := transfers s ++ [tr];
     trace := trace s ++ [WriteBalance f; WriteBalance t; Acquire;
                          AppendTransfers; Release] |}.

(** States of the store: the seeded store, and any store that a call of one
    of the two mutating methods of the service leaves behind, with any
    arguments and whatever its outcome.  The routes call the service with
    validated arguments only, so these include every store that requests
    can produce. *)
Inductive reachable : Database → Prop :=
  | reachable_init : reachable Db.init
  | reachable_create s u c d :
      reachable s → reachable (BankingService.create_account u c d s).2
  | reachable_transfer s u now f t a :
      reachable s → reachable (BankingService.execute_transfer u now f t a s).2.

End Double.

(** ** Exception handlers ([app/utils/exception_handler.py]) *)

(** A [JSONResponse]: the items of its [content] dict, in the order written,
    and its status code. *)
Record JSONResponse : Type := mkJSONResponse {
  content : list (string * string);
  status_code : Z
}.

(** The four handlers.  Each ignores the request and the exception it is
    given. *)
Definition AccountNotFoundExceptionHandler : JSONResponse :=
  {| content := [("status", "failure"); ("message", "Account not found")];
     status_code := 404 |}.

Definition CustomerNotFoundExceptionHandler : JSONResponse :=
  {| content := [("status", "failure"); ("message", "Customer Id not found")];
     status_code := 404 |}.

Definition InsufficientFundsExceptionHandler : JSONResponse :=
  {| content := [("status", "failure");
                 ("msg", "Transfer cannot be completed. Insufficient funds")];
     status_code := 400 |}.

Definition SelfTransferExceptionHandler : JSONResponse :=
  {| content := [("status", "failure");
                 ("msg", "Transfer cannot be completed. Cannot transfer money to the same account")];
     status_code := 400 |}.

(** The handlers that [app/main.py] registers with
    [app.add_exception_handler]; an exception of another class has none. *)
Definition exception_handler (e : exn) : option JSONResponse :=
  match e with
  | AccountNotFoundException => Some AccountNotFoundExceptionHandler
  | CustomerNotFoundException => Some CustomerNotFoundExceptionHandler
  | InsufficientFundsException => Some InsufficientFundsExceptionHandler
  | SelfTransferException => Some SelfTransferExceptionHandler
  | KeyError _ | ValidationError => None
  end.

(** ** More observations *)

(** Whether the lock is held after a trace. *)
Fixpoint held_after (held : bool) (tr : list event) : bool :=
  match tr with
  | [] => held
  | Acquire :: tr' => held_after true tr'
  | Release :: tr' => held_after false tr'
  | (WriteAccounts _ | WriteBalance _ | AppendTransfers) :: tr' =>
      held_after held tr'
  end.

(** The lock is never acquired while it is held (a [threading.Lock] is not
    reentrant: that would block for ever) and never released while free. *)
Fixpoint well_bracketed (held : bool) (tr : list event) : bool :=
  match tr with
  | [] => true
  | Acquire :: tr' => negb held && well_bracketed true tr'
  | Release :: tr' => held && well_bracketed false tr'
  | (WriteAccounts _ | WriteBalance _ | AppendTransfers) :: tr' =>
      well_bracketed held tr'
  end.

(** A record of the log is well formed in a store: its amount is within the
    bounds of the request schema, its two accounts differ and both exist. *)
Definition transfer_ok (m : gmap string account) (t : Transfer) : Prop :=
  0 < transfer_amount t ≤ MAX_AMOUNT ∧
  from_account_id t ≠ to_account_id t ∧
  is_Some (m !! from_account_id t) ∧ is_Some (m !! to_account_id t).

(** Sample inputs used by the examples below. *)
Definition uuid_a : UUID := mkUUID "0123456789abcdef0123456789abcdef".
Definition uuid_b : UUID := mkUUID "01234567ffffffffffffffffffffffff".
Definition noon : datetime := mkDatetime 2025 6 1 12 0 0 0.

(** States of the store: the seeded store, and any store that a request to
    one of the four routes leaves behind, whatever its outcome. *)
Inductive reachable : Database → Prop :=
  | reachable_init : reachable Db.init
  | reachable_create s u body :
      reachable s → reachable (Routes.create_account u body s).2
  | reachable_transfer s u now body :
      reachable s → reachable (Routes.transfer_amount u now body s).2
  | reachable_get_balance s account_id :
      reachable s → reachable (Routes.get_balance account_id s).2
  | reachable_get_transfer_history s account_id :
      reachable s → reachable (Routes.get_transfer_history account_id s).2.

(** * Properties *)

(** ** Running the methods *)

Ltac run :=
  unfold Routes.transfer_amount, Routes.create_account,
    BankingService.execute_transfer, BankingService.create_account,
    Db.create_account, Db.update_balance, Db.add_transfer, Db.get_account,
    Db.get_customer, Db.get_transfers_by_customer, Db.get_accounts_by_customer,
    with_lock, accounts_setitem, balance_iadd, transfers_append,
    mbind, M_bind, mret, M_ret, raise, gets, modify, lift, emit; simpl.

(** The four outcomes of [execute_transfer], by the checks in their order. *)
Lemma execute_transfer_unfold u now f t a s :
  BankingService.execute_transfer u now f t a s =
  match accounts s !! f, accounts s !! t with
  | None, _ => (inl AccountNotFoundException, s)
  | Some _, None => (inl AccountNotFoundException, s)
  | Some fa, Some ta =>
      if decide (fa = ta) then (inl SelfTransferException, s)
      else if decide (acc_balance fa < a) then (inl InsufficientFundsException, s)
      else let tr := mkTransfer (uuid_str u) f t a now in
           (inr tr, transferred s f t fa ta a tr)
  end.
Proof.
  run.
  destruct (accounts s !! f) as [fa|] eqn:Hf; [|done].
  destruct (accounts s !! t) as [ta|] eqn:Ht; [|done].
  destruct (decide (fa = ta)) as [|Hne]; [done|].
  destruct (decide (acc_balance fa < a)); [done|].
  simpl. rewrite Hf. simpl.
  assert (f ≠ t) as Hft by (intros ->; congruence).
  rewrite lookup_insert_ne by done. rewrite Ht. simpl.
  unfold transferred. repeat rewrite <- app_assoc. done.
Qed.

(** A transfer that returns went through all the checks. *)
Lemma execute_transfer_inv u now f t a s tr s' :
  BankingService.execute_transfer u now f t a s = (inr tr, s') →
  ∃ fa ta, accounts s !! f = Some fa ∧ accounts s !! t = Some ta ∧
    f ≠ t ∧ fa ≠ ta ∧ a ≤ acc_balance fa ∧
    tr = mkTransfer (uuid_str u) f t a now ∧
    s' = transferred s f t fa ta a tr.
Proof.
  rewrite execute_transfer_unfold.
  destruct (accounts s !! f) as [fa|] eqn:Hf; [|done].
  destruct (accounts s !! t) as [ta|] eqn:Ht; [|done].
  destruct (decide (fa = ta)) as [|Hne]; [done|].
  destruct (decide (acc_balance fa < a)); [done|].
  simpl. intros [= <- <-]. exists fa, ta.
  repeat split; try done; [|lia].
  intros ->. congruence.
Qed.

Lemma create_account_unfold u c d s :
  BankingService.create_account u c d s =
  match customers s !! c with
  | None => (inl CustomerNotFoundException, s)
  | Some _ =>
      (inr (new_account (new_account_id u) c d),
       created s (new_account_id u) (new_account (new_account_id u) c d))
  end.
Proof.
  run. destruct (customers s !! c); [|done].
  simpl. unfold created. repeat rewrite <- app_assoc. done.
Qed.

(** [POST /accounts]: validation, then the service, then the response
    model. *)
Lemma route_create_account_unfold u body s :
  Routes.create_account u body s =
  if amount_in_range (ac_initial_deposit body) then
    match customers s !! ac_customer_id body with
    | None => (inl CustomerNotFoundException, s)
    | Some _ =>
        (inr (mkAccountModel (new_account_id u) (ac_customer_id body)
                (ac_initial_deposit body)),
         created s (new_account_id u)
           (new_account (new_account_id u) (ac_customer_id body)
              (ac_initial_deposit body)))
    end
  else (inl ValidationError, s).
Proof.
  unfold Routes.create_account, validate_AccountCreate.
  unfold mbind at 1, M_bind, lift.
  destruct (amount_in_range (ac_initial_deposit body)); [|done].
  unfold mbind, M_bind. rewrite create_account_unfold.
  by destruct (customers s !! ac_customer_id body).
Qed.

(** [POST /transfers]: validation, then the comparison of the two
    identifiers, then the service. *)
Lemma route_transfer_amount_unfold u now body s :
  Routes.transfer_amount u now body s =
  match validate_TransferRequest body with
  | inl e => (inl e, s)
  | inr _ =>
      if decide (tr_from_account_id body = tr_to_account_id body) then
        (inl SelfTransferException, s)
      else
        BankingService.execute_transfer u now (tr_from_account_id body)
          (tr_to_account_id body) (tr_transfer_amount body) s
  end.
Proof.
  unfold Routes.transfer_amount, validate_TransferRequest.
  unfold mbind at 1, M_bind, lift, raise.
  destruct (_ && _); [|done].
  by destruct (decide (tr_from_account_id body = tr_to_account_id body)).
Qed.

Lemma amount_in_range_spec v :
  amount_in_range v = true ↔ 0 < v ≤ MAX_AMOUNT.
Proof.
  unfold amount_in_range.
  rewrite andb_true_iff, !bool_decide_eq_true. done.
Qed.

Lemma validate_TransferRequest_ok body r :
  validate_TransferRequest body = inr r →
  r = body ∧ 0 < tr_transfer_amount body ≤ MAX_AMOUNT.
Proof.
  unfold validate_TransferRequest.
  destruct (_ && _ && _) eqn:H; [|done].
  intros [= <-]. split; [done|].
  apply andb_true_iff in H as [_ H]. by apply amount_in_range_spec.
Qed.

(** The store a request to [POST /accounts] leaves behind. *)
Lemma route_create_account_state u body s :
  (Routes.create_account u body s).2 = s ∨
  (0 < ac_initial_deposit body ≤ MAX_AMOUNT ∧
   (Routes.create_account u body s).2 =
     created s (new_account_id u)
       (new_account (new_account_id u) (ac_customer_id body)
          (ac_initial_deposit body))).
Proof.
  rewrite route_create_account_unfold.
  destruct (amount_in_range (ac_initial_deposit body)) eqn:Hd; [|by left].
  apply amount_in_range_spec in Hd.
  destruct (customers s !! ac_customer_id body); [by right|by left].
Qed.

(** The store a request to [POST /transfers] leaves behind. *)
Lemma route_transfer_amount_state u now body s :
  (Routes.transfer_amount u now body s).2 = s ∨
  ∃ fa ta tr,
    accounts s !! tr_from_account_id body = Some fa ∧
    accounts s !! tr_to_account_id body = Some ta ∧
    tr_from_account_id body ≠ tr_to_account_id body ∧
    0 < tr_transfer_amount body ≤ MAX_AMOUNT ∧
    tr_transfer_amount body ≤ acc_balance fa ∧
    (Routes.transfer_amount u now body s).2 =
      transferred s (tr_from_account_id body) (tr_to_account_id body) fa ta
        (tr_transfer_amount body) tr.
Proof.
  rewrite route_transfer_amount_unfold.
  destruct (validate_TransferRequest body) as [e|r] eqn:Hv; [by left|].
  apply validate_TransferRequest_ok in Hv as [_ Ha].
  destruct (decide (tr_from_account_id body = tr_to_account_id body));
    [by left|].
  destruct (BankingService.execute_transfer u now (tr_from_account_id body)
              (tr_to_account_id body) (tr_transfer_amount body) s)
    as [[e|tr] s'] eqn:Hx.
  - left. rewrite execute_transfer_unfold in Hx.
    repeat case_match; by simplify_eq.
  - right. apply execute_transfer_inv in Hx
      as (fa & ta & Hf & Ht & Hft & Hne & Hle & -> & ->).
    exists fa, ta. eexists. repeat split; try done; lia.
Qed.

(** The two [GET] routes leave the store as it is. *)
Lemma route_get_balance_state account_id s :
  (Routes.get_balance account_id s).2 = s.
Proof.
  unfold Routes.get_balance, BankingService.get_balance, Db.get_balance. run.
  by destruct (accounts s !! account_id).
Qed.

Lemma route_get_transfer_history_state account_id s :
  (Routes.get_transfer_history account_id s).2 = s.
Proof.
  unfold Routes.get_transfer_history, BankingService.get_transfers,
    Db.get_transfers_by_account. run.
  by destruct (bool_decide _).
Qed.

(** Induction over the reachable stores, on the account map alone. *)
Lemma reachable_accounts_ind (P : gmap string account → Prop) :
  P ACCOUNTS →
  (∀ m u c d, P m → 0 < d ≤ MAX_AMOUNT →
     P (<[new_account_id u := new_account (new_account_id u) c d]> m)) →
  (∀ m f t fa ta a, P m →
     m !! f = Some fa → m !! t = Some ta → f ≠ t →
     0 < a ≤ MAX_AMOUNT → a ≤ acc_balance fa →
     P (<[t := with_balance ta (acc_balance ta + a)]>
        (<[f := with_balance fa (acc_balance fa + - a)]> m))) →
  ∀ s, reachable s → P (accounts s).
Proof.
  intros Hinit Hcreate Htransfer s Hs.
  induction Hs as [|s u body Hs IH|s u now body Hs IH|s k Hs IH|s k Hs IH].
  - done.
  - destruct (route_create_account_state u body s) as [->|[Hd ->]]; [done|].
    simpl. by apply Hcreate.
  - destruct (route_transfer_amount_state u now body s)
      as [->|(fa & ta & tr & Hf & Ht & Hft & Ha & Hle & ->)]; [done|].
    simpl. by eapply Htransfer.
  - by rewrite route_get_balance_state.
  - by rewrite route_get_transfer_history_state.
Qed.

(** ** Invariants of the account map *)

Lemma ident_with_balance acc b : ident (with_balance acc b) = ident acc.
Proof. done. Qed.

Lemma keyed_ACCOUNTS : keyed ACCOUNTS.
Proof.
  intros k acc H. unfold ACCOUNTS in H.
  repeat (rewrite lookup_insert in H; case_decide; [by simplify_eq|]).
  by rewrite lookup_empty in H.
Qed.

Lemma keyed_insert m k acc :
  keyed m → ident acc = Some k → keyed (<[k := acc]> m).
Proof.
  intros Hm Hacc j acc'. rewrite lookup_insert.
  case_decide; [by intros; simplify_eq|]. apply Hm.
Qed.

Lemma reachable_keyed s : reachable s → keyed (accounts s).
Proof.
  apply (reachable_accounts_ind keyed).
  - apply keyed_ACCOUNTS.
  - intros m u c d Hm _. by apply keyed_insert.
  - intros m f t fa ta a Hm Hf Ht _ _ _.
    apply keyed_insert; [apply keyed_insert; [done|]|];
      rewrite ident_with_balance; by apply Hm.
Qed.

(** In a keyed map two identifiers that differ hold dicts that differ. *)
Lemma keyed_distinct m A B accA accB :
  keyed m → m !! A = Some accA → m !! B = Some accB → A ≠ B → accA ≠ accB.
Proof.
  intros Hm HA HB Hne ->. apply Hm in HA, HB. congruence.
Qed.




(** ** The sum of the balances *)

Lemma total_balance_insert m k acc acc' :
  m !! k = Some acc →
  total_balance (<[k := acc']> m) =
  total_balance m - acc_balance acc + acc_balance acc'.
Proof.
  intros Hk. unfold total_balance.
  rewrite <- (insert_delete_eq m k acc').
  rewrite map_fold_insert_L; [| intros; lia | apply lookup_delete_eq].
  rewrite (map_fold_delete_L _ _ k acc m); [lia | intros; lia | done].
Qed.

(** ** Transfers *)

(** C2.  In every reachable store, for two existing accounts with different
    identifiers [A] and [B] and an amount [a] above the balance of [A],
    [execute_transfer] raises [InsufficientFundsException] and the store,
    hence both balances, is as before. *)
Theorem C2_insufficient_funds s u now A B accA accB a :
  reachable s → A ≠ B →
  accounts s !! A = Some accA → accounts s !! B = Some accB →
  a > acc_balance accA →
  BankingService.execute_transfer u now A B a s =
    (inl InsufficientFundsException, s) ∧
  balance_of s A = Some (acc_balance accA) ∧
  balance_of s B = Some (acc_balance accB).
Proof.
  intros Hs Hne HA HB Hgt.
  assert (accA ≠ accB) as Hd
    by (eapply keyed_distinct; eauto using reachable_keyed).
  rewrite execute_transfer_unfold. unfold balance_of. rewrite HA, HB.
  destruct (decide (accA = accB)); [done|].
  destruct (decide (acc_balance accA < a)); [done|lia].
Qed.

Lemma C2_witness :
  BankingService.execute_transfer uuid_a noon "acc5-7890" "acc3-9012"
    25001 Db.init = (inl InsufficientFundsException, Db.init) ∧
  balance_of Db.init "acc5-7890" = Some 25000 ∧
  balance_of Db.init "acc3-9012" = Some 75050.
Proof.
  apply (C2_insufficient_funds Db.init uuid_a noon "acc5-7890" "acc3-9012"
           (seed_account "acc5-7890" 1 25000)
           (seed_account "acc3-9012" 3 75050) 25001).
  - apply reachable_init.
  - discriminate.
  - reflexivity.
  - reflexivity.
  - simpl. lia.
Defined.

(** C8.  For an existing account [A] and any amount, [execute_transfer] from
    [A] to [A] raises [SelfTransferException] and leaves the store, hence
    every balance, as it was. *)
Theorem C8_self_transfer s u now A accA a :
  accounts s !! A = Some accA →
  BankingService.execute_transfer u now A A a s =
    (inl SelfTransferException, s).
Proof.
  intros HA. rewrite execute_transfer_unfold, HA.
  by destruct (decide (accA = accA)).
Qed.

Lemma C8_witness :
  BankingService.execute_transfer uuid_a noon "acc4-3456" "acc4-3456"
    (-5) Db.init = (inl SelfTransferException, Db.init).
Proof.
  apply (C8_self_transfer Db.init uuid_a noon "acc4-3456"
           (seed_account "acc4-3456" 4 200075) (-5)).
  reflexivity.
Defined.

(** C10.  Whenever [execute_transfer] raises, the exception is one of
    [AccountNotFoundException], [SelfTransferException] and
    [InsufficientFundsException], and the store is exactly as before the
    call: no balance has changed and no record was appended to the log. *)
Theorem C10_failed_transfer_changes_nothing u now f t a s e s' :
  BankingService.execute_transfer u now f t a s = (inl e, s') →
  s' = s ∧
  (e = AccountNotFoundException ∨ e = SelfTransferException
   ∨ e = InsufficientFundsException).
Proof.
  rewrite execute_transfer_unfold.
  repeat case_match; intros [= <- <-]; auto.
Qed.

Lemma C10_witness :
  (BankingService.execute_transfer uuid_a noon "acc1-1234" "no-such-id"
     100 Db.init).2 = Db.init ∧
  (AccountNotFoundException = AccountNotFoundException
   ∨ AccountNotFoundException = SelfTransferException
   ∨ AccountNotFoundException = InsufficientFundsException).
Proof.
  apply (C10_failed_transfer_changes_nothing uuid_a noon "acc1-1234"
           "no-such-id" 100 Db.init).
  vm_compute. reflexivity.
Defined.

(** C5 (as stated, refuted).  A request to [POST /transfers] whose two
    identifiers are equal and name no account is answered with
    [SelfTransferException], not with [AccountNotFoundException]: the route
    compares the identifiers before it calls the service. *)
Lemma C5_counterexample :
  let body := mkTransferRequest "no-such-id" "no-such-id" 5000 in
  tr_from_account_id body = tr_to_account_id body ∧
  accounts Db.init !! tr_from_account_id body = None ∧
  validate_TransferRequest body = inr body ∧
  Routes.transfer_amount uuid_a noon body Db.init =
    (inl SelfTransferException, Db.init) ∧
  (Routes.transfer_amount uuid_a noon body Db.init).1 ≠
    inl AccountNotFoundException.
Proof. vm_compute. repeat split; discriminate. Qed.

(** C5 (amended).  When the two identifiers are equal and name no account,
    [BankingService.execute_transfer] raises [AccountNotFoundException]: in
    the service the existence checks come before the comparison of the two
    accounts.  A validated request to the route [POST /transfers] with these
    identifiers is answered with [SelfTransferException], because the route
    compares the identifiers before it calls the service.  Neither changes
    the store. *)
Theorem C5_absent_equal_identifiers s u now X a :
  accounts s !! X = None →
  BankingService.execute_transfer u now X X a s =
    (inl AccountNotFoundException, s) ∧
  (∀ body, validate_TransferRequest body = inr body →
     tr_from_account_id body = X → tr_to_account_id body = X →
     Routes.transfer_amount u now body s = (inl SelfTransferException, s)).
Proof.
  intros HX. split.
  - by rewrite execute_transfer_unfold, HX.
  - intros body Hv Hf Ht. rewrite route_transfer_amount_unfold, Hv.
    destruct (decide (tr_from_account_id body = tr_to_account_id body));
      [done|congruence].
Qed.

Lemma C5_witness :
  BankingService.execute_transfer uuid_a noon "no-such-id" "no-such-id"
    5000 Db.init = (inl AccountNotFoundException, Db.init) ∧
  (∀ body, validate_TransferRequest body = inr body →
     tr_from_account_id body = "no-such-id" →
     tr_to_account_id body = "no-such-id" →
     Routes.transfer_amount uuid_a noon body Db.init =
       (inl SelfTransferException, Db.init)).
Proof.
  apply (C5_absent_equal_identifiers Db.init uuid_a noon "no-such-id" 5000).
  reflexivity.
Defined.

(** ** Account creation *)

Lemma new_account_id_inj u u' :
  new_account_id u = new_account_id u' →
  String.substring 0 8 (hex u) = String.substring 0 8 (hex u').
Proof. unfold new_account_id. by intros [= H]. Qed.

(** C6 (as stated, refuted).  Two calls whose UUIDs differ but share their
    first eight hexadecimal digits return the same identifier, and the
    second call overwrites the account the first one created. *)
Lemma C6_counterexample :
  let r1 := BankingService.create_account uuid_a 1 10050 Db.init in
  let r2 := BankingService.create_account uuid_b 1 20000 r1.2 in
  uuid_a ≠ uuid_b ∧
  r1.1 = inr (new_account "acc-01234567" 1 10050) ∧
  r2.1 = inr (new_account "acc-01234567" 1 20000) ∧
  accounts r1.2 !! "acc-01234567" = Some (new_account "acc-01234567" 1 10050) ∧
  accounts r2.2 !! "acc-01234567" = Some (new_account "acc-01234567" 1 20000).
Proof. vm_compute. repeat split; discriminate. Qed.

(** C6 (amended).  For a customer that does not exist [create_account]
    raises [CustomerNotFoundException] and leaves the store as it was.  For
    an existing customer and any deposit it returns an account of that
    customer whose balance is the deposit and whose identifier is ["acc-"]
    followed by the first eight hexadecimal digits of the UUID drawn, stored
    under that identifier, all other entries being kept.  The identifier is
    not compared with those in use: when it is not yet in use every existing
    account is kept, and a later call whose UUID has different first eight
    digits returns a different identifier and keeps the account created
    first. *)
Theorem C6_create_account s u c d :
  (customers s !! c = None →
   BankingService.create_account u c d s =
     (inl CustomerNotFoundException, s)) ∧
  (is_Some (customers s !! c) →
   ∃ acc s',
     BankingService.create_account u c d s = (inr acc, s') ∧
     acc_balance acc = d ∧ acc_customer_id acc = c ∧
     acc_account_id acc = Some (new_account_id u) ∧
     accounts s' = <[new_account_id u := acc]> (accounts s) ∧
     customers s' = customers s ∧ transfers s' = transfers s ∧
     (accounts s !! new_account_id u = None →
      ∀ k old, accounts s !! k = Some old →
        k ≠ new_account_id u ∧ accounts s' !! k = Some old) ∧
     (∀ u' d',
        String.substring 0 8 (hex u') ≠ String.substring 0 8 (hex u) →
        ∃ acc' s'',
          BankingService.create_account u' c d' s' = (inr acc', s'') ∧
          acc_account_id acc' ≠ acc_account_id acc ∧
          accounts s'' !! new_account_id u = Some acc)).
Proof.
  split.
  - intros Hc. by rewrite create_account_unfold, Hc.
  - intros [cust Hc]. eexists _, _.
    split; [by rewrite create_account_unfold, Hc|].
    simpl. do 6 (split; [done|]). split.
    + intros Hfresh k old Hk.
      assert (k ≠ new_account_id u) by congruence.
      by rewrite lookup_insert_ne.
    + intros u' d' Hpre. eexists _, _.
      split; [by rewrite create_account_unfold; simpl; rewrite Hc|].
      assert (new_account_id u' ≠ new_account_id u) as Hne
        by (intros Heq; by apply new_account_id_inj in Heq).
      simpl. split; [congruence|].
      rewrite lookup_insert_ne by done. by rewrite lookup_insert_eq.
Qed.

Lemma C6_witness :
  BankingService.create_account uuid_a 999 10050 Db.init =
    (inl CustomerNotFoundException, Db.init) ∧
  ∃ acc s',
    BankingService.create_account uuid_a 1 10050 Db.init = (inr acc, s') ∧
    acc_balance acc = 10050 ∧ acc_customer_id acc = 1 ∧
    acc_account_id acc = Some (new_account_id uuid_a) ∧
    accounts s' = <[new_account_id uuid_a := acc]> (accounts Db.init) ∧
    customers s' = customers Db.init ∧ transfers s' = transfers Db.init ∧
    (accounts Db.init !! new_account_id uuid_a = None →
     ∀ k old, accounts Db.init !! k = Some old →
       k ≠ new_account_id uuid_a ∧ accounts s' !! k = Some old) ∧
    (∀ u' d',
       String.substring 0 8 (hex u') ≠ String.substring 0 8 (hex uuid_a) →
       ∃ acc' s'',
         BankingService.create_account u' 1 d' s' = (inr acc', s'') ∧
         acc_account_id acc' ≠ acc_account_id acc ∧
         accounts s'' !! new_account_id uuid_a = Some acc).
Proof.
  split.
  - apply (proj1 (C6_create_account Db.init uuid_a 999 10050)). reflexivity.
  - apply (proj2 (C6_create_account Db.init uuid_a 1 10050)).
    eexists. reflexivity.
Defined.



(** ** The lock *)

Lemma events_since_app s s' l :
  trace s' = trace s ++ l → events_since s s' = l.
Proof. unfold events_since. intros ->. apply drop_app_length. Qed.

(** [create_account] and [add_transfer] write with the lock held. *)
Lemma create_account_guarded u c d s :
  events_since s (Db.create_account u c d s).2 =
    [Acquire; WriteAccounts (new_account_id u); Release] ∧
  lock_discipline (events_since s (Db.create_account u c d s).2) = true.
Proof.
  assert (events_since s (Db.create_account u c d s).2 =
            [Acquire; WriteAccounts (new_account_id u); Release]) as ->; [|done].
  apply events_since_app. run. by rewrite <- !app_assoc.
Qed.

Lemma add_transfer_guarded t s :
  events_since s (Db.add_transfer t s).2 =
    [Acquire; AppendTransfers; Release] ∧
  lock_discipline (events_since s (Db.add_transfer t s).2) = true.
Proof.
  assert (events_since s (Db.add_transfer t s).2 =
            [Acquire; AppendTransfers; Release]) as ->; [|done].
  apply events_since_app. run. by rewrite <- !app_assoc.
Qed.

(** [update_balance] writes the balance without taking the lock. *)
Lemma update_balance_unguarded k d s acc :
  accounts s !! k = Some acc →
  events_since s (Db.update_balance k d s).2 = [WriteBalance k] ∧
  lock_discipline (events_since s (Db.update_balance k d s).2) = false.
Proof.
  intros Hk.
  assert (events_since s (Db.update_balance k d s).2 = [WriteBalance k])
    as ->; [|done].
  apply events_since_app. run. by rewrite Hk.
Qed.

(** Every transfer that returns has written both balances outside the
    lock. *)
Lemma execute_transfer_unguarded u now f t a s tr s' :
  BankingService.execute_transfer u now f t a s = (inr tr, s') →
  events_since s s' =
    [WriteBalance f; WriteBalance t; Acquire; AppendTransfers; Release] ∧
  lock_discipline (events_since s s') = false.
Proof.
  intros Hx. apply execute_transfer_inv in Hx
    as (fa & ta & _ & _ & _ & _ & _ & _ & ->).
  assert (events_since s (transferred s f t fa ta a tr) =
            [WriteBalance f; WriteBalance t; Acquire; AppendTransfers;
             Release]) as ->; [|done].
  by apply events_since_app.
Qed.

(** C9 (the code departs from it).  In the transfer of 100.00 from
    [acc1-1234] to [acc2-5678] on the seeded store, the two balance writes
    of [update_balance] happen before the lock is first acquired; only the
    append to the log is made with the lock held. *)
Theorem C9_balance_writes_outside_lock :
  let r := BankingService.execute_transfer uuid_a noon "acc1-1234"
             "acc2-5678" 10000 Db.init in
  events_since Db.init r.2 =
    [WriteBalance "acc1-1234"; WriteBalance "acc2-5678";
     Acquire; AppendTransfers; Release] ∧
  lock_discipline (events_since Db.init r.2) = false.
Proof. vm_compute. done. Qed.

(** ** The history of a customer *)

Lemma comprehension_inr {A B} (f : A → exn + B) (g : A → B) l :
  (∀ x, x ∈ l → f x = inr (g x)) → comprehension f l = inr (g <$> l).
Proof.
  induction l as [|x l IH]; intros Hl; [done|]. simpl.
  rewrite (Hl x) by apply list_elem_of_here.
  rewrite IH; [done|]. intros y Hy. apply Hl. by apply list_elem_of_further.
Qed.

(** One dict without the key ["id"] makes the comprehension over
    [getitem_id] raise. *)
Lemma comprehension_getitem_id_raises l x :
  x ∈ l → acc_id x = None →
  comprehension getitem_id l = inl (KeyError "id").
Proof.
  induction l as [|y l IH]; intros Hx Hid; [by apply elem_of_nil in Hx|].
  simpl. unfold getitem_id at 1.
  destruct (acc_id y) as [v|] eqn:Hy; [|done].
  apply elem_of_cons in Hx as [->|Hx]; [congruence|].
  by rewrite IH.
Qed.

(** An absent customer: the not-found error. *)
Lemma get_transfers_by_customer_absent c s :
  customers s !! c = None →
  Db.get_transfers_by_customer c s = (inl AccountNotFoundException, s).
Proof.
  intros Hc. run.
  rewrite bool_decide_eq_false_2; [done|]. rewrite Hc. by intros [? ?].
Qed.

(** When every account of an existing customer has the shape of the seed
    data, the method returns the customer's transfers. *)
Lemma get_transfers_by_customer_seed_shape c s :
  is_Some (customers s !! c) → keyed (accounts s) →
  (∀ k acc, accounts s !! k = Some acc → acc_customer_id acc = c →
     acc_account_id acc = None) →
  Db.get_transfers_by_customer c s = (inr (customer_transfers s c), s).
Proof.
  intros Hc Hkeyed Hshape. run.
  rewrite bool_decide_eq_true_2 by done.
  set (accs := filter _ _).
  assert (∀ acc, acc ∈ accs →
            ∃ k, accounts s !! k = Some acc ∧ acc_customer_id acc = c ∧
                 acc_id acc = Some k) as Haccs.
  { intros acc [Hcust Hin]%list_elem_of_filter.
    apply list_elem_of_fmap in Hin as ([k acc'] & -> & Hin).
    apply elem_of_map_to_list in Hin. simpl in *.
    exists k. split_and!; [done..|].
    pose proof (Hkeyed _ _ Hin) as Hid. unfold ident in Hid.
    by rewrite (Hshape _ _ Hin Hcust) in Hid. }
  rewrite (comprehension_inr _ (λ acc, default "" (acc_id acc))).
  2:{ intros acc (k & _ & _ & Hk)%Haccs. unfold getitem_id. by rewrite Hk. }
  f_equal. unfold customer_transfers.
  assert (∀ k, k ∈ (λ acc, default "" (acc_id acc)) <$> accs
               ↔ owns (accounts s) c k) as Hmem.
  { intros k. rewrite list_elem_of_fmap. unfold owns. split.
    - intros (acc & -> & Hin). destruct (Haccs _ Hin) as (k & Hk & Hcust & ->).
      simpl. by rewrite Hk, <- Hcust.
    - destruct (accounts s !! k) as [acc|] eqn:Hk; [|done].
      intros [= Hcust]. exists acc.
      pose proof (Hkeyed _ _ Hk) as Hid. unfold ident in Hid.
      rewrite (Hshape _ _ Hk Hcust) in Hid. rewrite Hid. split; [done|].
      apply list_elem_of_filter. split; [done|].
      apply list_elem_of_fmap. exists (k, acc). split; [done|].
      by apply elem_of_map_to_list. }
  f_equal. apply list_filter_iff. intros t. by rewrite !Hmem.
Qed.

(** When an existing customer has an account without the key ["id"], as
    [create_account] builds them, the method raises [KeyError]. *)
Lemma get_transfers_by_customer_raises c s k acc :
  is_Some (customers s !! c) →
  accounts s !! k = Some acc → acc_customer_id acc = c → acc_id acc = None →
  Db.get_transfers_by_customer c s = (inl (KeyError "id"), s).
Proof.
  intros Hc Hk Hcust Hid. run.
  rewrite bool_decide_eq_true_2 by done.
  rewrite (comprehension_getitem_id_raises _ acc); [done| |done].
  apply list_elem_of_filter. split; [done|].
  apply list_elem_of_fmap. exists (k, acc). split; [done|].
  by apply elem_of_map_to_list.
Qed.

(** The seeded store: customer 1 has the one seeded transfer. *)
Example customer_history_seeded :
  Db.get_transfers_by_customer 1 Db.init = (inr TRANSFERS, Db.init).
Proof. vm_compute. reflexivity. Qed.

(** C4 (the code departs from it).  After [POST /accounts] has created an
    account for customer 1 on the seeded store, customer 1 exists, owns
    accounts, one of which is the sender of the seeded transfer, and
    [get_transfers_by_customer 1] raises [KeyError] for the key ["id"]
    instead of returning that transfer: the dict built by [create_account]
    has the key ["account_id"], not ["id"]. *)
Theorem C4_customer_history_after_create_account :
  let s := (Routes.create_account uuid_a (mkAccountCreate 1 10050) Db.init).2 in
  reachable s ∧
  is_Some (customers s !! 1) ∧
  owns (accounts s) 1 "acc1-1234" ∧
  customer_transfers s 1 = TRANSFERS ∧
  Db.get_transfers_by_customer 1 s = (inl (KeyError "id"), s).
Proof.
  split; [apply reachable_create, reachable_init|].
  vm_compute. split_and!; eauto.
Qed.

(** * Further properties of the store, the service and the routes *)

(** ** The outcomes of the two [POST] routes *)

Lemma validate_TransferRequest_lengths body r :
  validate_TransferRequest body = inr r →
  (str_len (tr_from_account_id body) ≤ 36)%nat ∧
  (str_len (tr_to_account_id body) ≤ 36)%nat.
Proof.
  unfold validate_TransferRequest.
  destruct (bool_decide (str_len (tr_from_account_id body) ≤ 36)%nat)
    eqn:H1; [|done].
  destruct (bool_decide (str_len (tr_to_account_id body) ≤ 36)%nat)
    eqn:H2; [|done].
  intros _. by apply bool_decide_eq_true in H1, H2.
Qed.

Lemma route_create_account_cases u body s :
  (∃ e, Routes.create_account u body s = (inl e, s)) ∨
  (0 < ac_initial_deposit body ≤ MAX_AMOUNT ∧
   is_Some (customers s !! ac_customer_id body) ∧
   Routes.create_account u body s =
     (inr (mkAccountModel (new_account_id u) (ac_customer_id body)
             (ac_initial_deposit body)),
      created s (new_account_id u)
        (new_account (new_account_id u) (ac_customer_id body)
           (ac_initial_deposit body)))).
Proof.
  rewrite route_create_account_unfold.
  destruct (amount_in_range (ac_initial_deposit body)) eqn:Hd; [|by eauto].
  apply amount_in_range_spec in Hd.
  destruct (customers s !! ac_customer_id body) eqn:Hc; [|by eauto].
  right. by eauto.
Qed.

Lemma route_transfer_amount_cases u now body s :
  (∃ e, Routes.transfer_amount u now body s = (inl e, s)) ∨
  (∃ fa ta,
     accounts s !! tr_from_account_id body = Some fa ∧
     accounts s !! tr_to_account_id body = Some ta ∧
     tr_from_account_id body ≠ tr_to_account_id body ∧
     0 < tr_transfer_amount body ≤ MAX_AMOUNT ∧
     tr_transfer_amount body ≤ acc_balance fa ∧
     Routes.transfer_amount u now body s =
       (inr (mkTransfer (uuid_str u) (tr_from_account_id body)
               (tr_to_account_id body) (tr_transfer_amount body) now),
        transferred s (tr_from_account_id body) (tr_to_account_id body)
          fa ta (tr_transfer_amount body)
          (mkTransfer (uuid_str u) (tr_from_account_id body)
             (tr_to_account_id body) (tr_transfer_amount body) now))).
Proof.
  rewrite route_transfer_amount_unfold.
  destruct (validate_TransferRequest body) as [e|r] eqn:Hv; [by eauto|].
  apply validate_TransferRequest_ok in Hv as [_ Ha].
  destruct (decide (tr_from_account_id body = tr_to_account_id body));
    [by eauto|].
  destruct (BankingService.execute_transfer u now (tr_from_account_id body)
              (tr_to_account_id body) (tr_transfer_amount body) s)
    as [[e|tr] s'] eqn:Hx.
  - left. rewrite execute_transfer_unfold in Hx.
    repeat case_match; simplify_eq; by eauto.
  - right. apply execute_transfer_inv in Hx
      as (fa & ta & Hf & Ht & Hft & Hne & Hle & -> & ->).
    exists fa, ta. split_and!; try done; lia.
Qed.

(** Induction over the reachable stores. *)
Lemma reachable_store_ind (P : Database → Prop) :
  P Db.init →
  (∀ s u c d, reachable s → P s →
     0 < d ≤ MAX_AMOUNT → is_Some (customers s !! c) →
     P (created s (new_account_id u) (new_account (new_account_id u) c d))) →
  (∀ s u now f t fa ta a, reachable s → P s →
     accounts s !! f = Some fa → accounts s !! t = Some ta → f ≠ t →
     0 < a ≤ MAX_AMOUNT → a ≤ acc_balance fa →
     P (transferred s f t fa ta a (mkTransfer (uuid_str u) f t a now))) →
  ∀ s, reachable s → P s.
Proof.
  intros Hinit Hcreate Htransfer s Hs.
  induction Hs as [|s u body Hs IH|s u now body Hs IH|s k Hs IH|s k Hs IH].
  - done.
  - destruct (route_create_account_cases u body s)
      as [[e ->]|(Hd & Hc & ->)]; [done|].
    simpl. by apply Hcreate.
  - destruct (route_transfer_amount_cases u now body s)
      as [[e ->]|(fa & ta & Hf & Ht & Hft & Ha & Hle & ->)]; [done|].
    simpl. by eapply Htransfer.
  - by rewrite route_get_balance_state.
  - by rewrite route_get_transfer_history_state.
Qed.

(** ** The two [GET] routes *)

Lemma read_routes_aux k s :
  Routes.get_balance k s =
    (match accounts s !! k with
     | Some acc => inr (k, acc_balance acc)
     | None => inl AccountNotFoundException
     end, s) ∧
  Routes.get_transfer_history k s =
    (match accounts s !! k with
     | Some _ => inr (filter (Db.involves k) (transfers s))
     | None => inl AccountNotFoundException
     end, s).
Proof.
  unfold Routes.get_balance, Routes.get_transfer_history,
    BankingService.get_balance, BankingService.get_transfers,
    Db.get_balance, Db.get_transfers_by_account. run.
  by destruct (accounts s !! k) as [acc|] eqn:Hk.
Qed.

(** X3.  [GET /accounts/{id}/balance] and [GET /accounts/{id}/transfers]
    never change the store.  For an identifier in use the first returns the
    identifier with the stored balance and the second the records of the log
    that have the identifier as sender or receiver, in the order of the log;
    for any other identifier both raise [AccountNotFoundException]. *)
Theorem read_routes k s :
  Routes.get_balance k s =
    (match accounts s !! k with
     | Some acc => inr (k, acc_balance acc)
     | None => inl AccountNotFoundException
     end, s) ∧
  Routes.get_transfer_history k s =
    (match accounts s !! k with
     | Some _ => inr (filter (Db.involves k) (transfers s))
     | None => inl AccountNotFoundException
     end, s).
Proof. apply read_routes_aux. Qed.

(** X4.  When [POST /accounts] returns an account, reading the balance of
    the identifier it returned gives the deposit of the request; the
    account returned carries the customer and the deposit of the request. *)
Theorem create_then_get_balance u body s a s' :
  Routes.create_account u body s = (inr a, s') →
  Routes.get_balance (account_id a) s' =
    (inr (account_id a, ac_initial_deposit body), s') ∧
  customer_id a = ac_customer_id body ∧
  balance a = ac_initial_deposit body.
Proof.
  intros Hc.
  destruct (route_create_account_cases u body s)
    as [[e He]|(_ & _ & Hok)]; [congruence|].
  rewrite Hok in Hc. injection Hc as <- <-. simpl.
  split; [|done].
  destruct (read_routes_aux (new_account_id u)
              (created s (new_account_id u)
                 (new_account (new_account_id u) (ac_customer_id body)
                    (ac_initial_deposit body)))) as [-> _].
  simpl. by rewrite lookup_insert_eq.
Qed.

Lemma create_then_get_balance_witness :
  Routes.get_balance "acc-01234567"
    (Routes.create_account uuid_a (mkAccountCreate 1 10050) Db.init).2 =
    (inr ("acc-01234567", 10050),
     (Routes.create_account uuid_a (mkAccountCreate 1 10050) Db.init).2) ∧
  1 = 1 ∧ 10050 = 10050.
Proof.
  apply (create_then_get_balance uuid_a (mkAccountCreate 1 10050) Db.init
           (mkAccountModel "acc-01234567" 1 10050)).
  vm_compute. reflexivity.
Defined.

(** ** Invariants of the reachable stores *)

Lemma is_Some_insert {A} (m : gmap string A) k x j :
  is_Some (m !! j) → is_Some (<[k := x]> m !! j).
Proof. rewrite lookup_insert. by case_decide. Qed.

Lemma reachable_customers s : reachable s → customers s = CUSTOMERS.
Proof. by apply (reachable_store_ind (λ s, customers s = CUSTOMERS)). Qed.

(** X5.  No request changes the customers: in every reachable store they
    are the four seeded ones. *)
Theorem customers_never_change s :
  reachable s →
  customers s = CUSTOMERS ∧
  ∀ c, is_Some (customers s !! c) ↔ c = 1 ∨ c = 2 ∨ c = 3 ∨ c = 4.
Proof.
  intros Hs. rewrite (reachable_customers s Hs). split; [done|].
  intros c. unfold CUSTOMERS.
  rewrite !lookup_insert_is_Some, lookup_empty, is_Some_alt. lia.
Qed.

Lemma customers_never_change_witness :
  let s := (Routes.create_account uuid_a (mkAccountCreate 1 10050) Db.init).2 in
  customers s = CUSTOMERS ∧
  ∀ c, is_Some (customers s !! c) ↔ c = 1 ∨ c = 2 ∨ c = 3 ∨ c = 4.
Proof.
  apply (customers_never_change
           (Routes.create_account uuid_a (mkAccountCreate 1 10050) Db.init).2).
  apply reachable_create, reachable_init.
Defined.

(** X6.  In every reachable store the customer of every account exists:
    the routes create accounts through the service only, which checks the
    customer, and customers are never removed. *)
Theorem account_customer_exists s k acc :
  reachable s → accounts s !! k = Some acc →
  is_Some (customers s !! acc_customer_id acc).
Proof.
  intros Hs. revert k acc.
  pattern s. revert s Hs. apply reachable_store_ind.
  - intros k acc H. unfold Db.init, ACCOUNTS in H. simpl in H.
    repeat (rewrite lookup_insert in H; case_decide; [by simplify_eq|]).
    by rewrite lookup_empty in H.
  - intros s u c d _ IH _ Hc k acc. simpl. rewrite lookup_insert.
    case_decide; [by intros; simplify_eq|]. apply IH.
  - intros s u now f t fa ta a _ IH Hf Ht _ _ _ k acc. simpl.
    rewrite !lookup_insert.
    repeat case_decide; intros; simplify_eq; simpl; eauto.
Qed.

Lemma account_customer_exists_witness :
  is_Some (customers Db.init !! acc_customer_id (seed_account "acc3-9012" 3 75050)).
Proof.
  apply (account_customer_exists Db.init "acc3-9012"
           (seed_account "acc3-9012" 3 75050)).
  - apply reachable_init.
  - reflexivity.
Defined.

Lemma reachable_log_ok s t :
  reachable s → t ∈ transfers s → transfer_ok (accounts s) t.
Proof.
  intros Hs. revert t. pattern s. revert s Hs. apply reachable_store_ind.
  - intros t Ht. apply list_elem_of_singleton in Ht as ->.
    unfold transfer_ok. simpl. split_and!; try done; by eexists.
  - intros s u c d _ IH _ _ t Ht. simpl in *.
    destruct (IH t Ht) as (? & ? & ? & ?).
    unfold transfer_ok. split_and!; try lia; try done; by apply is_Some_insert.
  - intros s u now f t fa ta a _ IH Hf Ht Hft Ha Hle tr Htr. simpl in *.
    apply elem_of_app in Htr as [Htr|Htr].
    + destruct (IH tr Htr) as (? & ? & ? & ?).
      unfold transfer_ok. split_and!; try lia; try done;
        by do 2 apply is_Some_insert.
    + apply list_elem_of_singleton in Htr as ->.
      unfold transfer_ok. simpl. split_and!; try done; try lia.
      * rewrite lookup_insert_ne by done. by rewrite lookup_insert_eq.
      * by rewrite lookup_insert_eq.
Qed.

(** X7.  In every reachable store every record of the log has an amount
    [v] with [0 < v <= 1,000,000], a sender that differs from its receiver,
    and a sender and a receiver that are accounts of the store. *)
Theorem log_records_well_formed s t :
  reachable s → t ∈ transfers s →
  0 < transfer_amount t ≤ MAX_AMOUNT ∧
  from_account_id t ≠ to_account_id t ∧
  is_Some (accounts s !! from_account_id t) ∧
  is_Some (accounts s !! to_account_id t).
Proof. apply reachable_log_ok. Qed.

Lemma log_records_well_formed_witness :
  let s := (Routes.transfer_amount uuid_a noon
              (mkTransferRequest "acc5-7890" "acc1-1234" 25000) Db.init).2 in
  let t := mkTransfer (uuid_str uuid_a) "acc5-7890" "acc1-1234" 25000 noon in
  0 < transfer_amount t ≤ MAX_AMOUNT ∧
  from_account_id t ≠ to_account_id t ∧
  is_Some (accounts s !! from_account_id t) ∧
  is_Some (accounts s !! to_account_id t).
Proof.
  apply (log_records_well_formed
           (Routes.transfer_amount uuid_a noon
              (mkTransferRequest "acc5-7890" "acc1-1234" 25000) Db.init).2).
  - apply reachable_transfer, reachable_init.
  - vm_compute. apply list_elem_of_further, list_elem_of_here.
Defined.

(** X8.  [POST /accounts] never touches the log and never removes an
    account; [POST /transfers] never adds or removes an account and only
    appends to the log, at most one record.  Neither changes the
    customers. *)
Theorem store_only_grows u now ab tb s :
  (transfers (Routes.create_account u ab s).2 = transfers s ∧
   dom (accounts s) ⊆ dom (accounts (Routes.create_account u ab s).2) ∧
   customers (Routes.create_account u ab s).2 = customers s) ∧
  (transfers s `prefix_of` transfers (Routes.transfer_amount u now tb s).2 ∧
   (length (transfers (Routes.transfer_amount u now tb s).2)
      ≤ S (length (transfers s)))%nat ∧
   dom (accounts (Routes.transfer_amount u now tb s).2) = dom (accounts s) ∧
   customers (Routes.transfer_amount u now tb s).2 = customers s).
Proof.
  split.
  - destruct (route_create_account_cases u ab s)
      as [[e ->]|(_ & _ & ->)]; simpl; [done|].
    split_and!; [done| |done]. rewrite dom_insert. set_solver.
  - destruct (route_transfer_amount_cases u now tb s)
      as [[e ->]|(fa & ta & Hf & Ht & _ & _ & _ & ->)]; simpl.
    + split_and!; [done|lia|done|done].
    + split_and!; [by eexists|rewrite length_app; simpl; lia| |done].
      rewrite !dom_insert_L.
      assert (tr_from_account_id tb ∈ dom (accounts s)) as Hfrom
        by (apply elem_of_dom; eauto).
      assert (tr_to_account_id tb ∈ dom (accounts s)) as Hto
        by (apply elem_of_dom; eauto).
      apply set_eq. intros j.
      rewrite !elem_of_union, !elem_of_singleton.
      split; [by intros [->|[->|?]]|by auto].
Qed.

(** ** The lock over a run *)

Lemma held_after_app h l1 l2 :
  held_after h (l1 ++ l2) = held_after (held_after h l1) l2.
Proof.
  revert h. induction l1 as [|[] l1 IH]; intros h; simpl; by rewrite ?IH.
Qed.

Lemma well_bracketed_app h l1 l2 :
  well_bracketed h (l1 ++ l2) =
  well_bracketed h l1 && well_bracketed (held_after h l1) l2.
Proof.
  revert h. induction l1 as [|[] l1 IH]; intros h; simpl;
    rewrite ?IH; by rewrite ?andb_assoc.
Qed.

(** X9.  In every reachable store the trace of the lock is well bracketed
    and ends with the lock free: no method acquires the lock while it is
    held or releases it while it is free, and no request leaves it held. *)
Theorem lock_free_between_requests s :
  reachable s →
  well_bracketed false (trace s) = true ∧ held_after false (trace s) = false.
Proof.
  intros Hs. pattern s. revert s Hs. apply reachable_store_ind.
  - done.
  - intros s u c d _ [IH1 IH2] _ _. simpl.
    by rewrite well_bracketed_app, held_after_app, IH1, IH2.
  - intros s u now f t fa ta a _ [IH1 IH2] _ _ _ _ _. simpl.
    by rewrite well_bracketed_app, held_after_app, IH1, IH2.
Qed.

Lemma lock_free_between_requests_witness :
  let s := (Routes.transfer_amount uuid_a noon
              (mkTransferRequest "acc5-7890" "acc1-1234" 25000)
              (Routes.create_account uuid_b (mkAccountCreate 2 500)
                 Db.init).2).2 in
  well_bracketed false (trace s) = true ∧ held_after false (trace s) = false.
Proof.
  apply (lock_free_between_requests
           (Routes.transfer_amount uuid_a noon
              (mkTransferRequest "acc5-7890" "acc1-1234" 25000)
              (Routes.create_account uuid_b (mkAccountCreate 2 500)
                 Db.init).2).2).
  apply reachable_transfer, reachable_create, reachable_init.
Defined.

(** ** Identifiers *)

Lemma length_substring n m s :
  (String.length (String.substring n m s) ≤ m)%nat.
Proof.
  revert n m. induction s as [|c s IH]; intros [|n] [|m]; simpl; try lia.
  - apply le_n_S, IH.
  - apply (IH n 0%nat).
  - apply (IH n (S m)).
Qed.

Lemma length_new_account_id u :
  (String.length (new_account_id u) ≤ 12)%nat.
Proof.
  cbv [new_account_id String.append]. simpl.
  pose proof (length_substring 0 8 (hex u)). lia.
Qed.

Lemma reachable_identifier_length s k :
  reachable s → is_Some (accounts s !! k) → (String.length k ≤ 12)%nat.
Proof.
  intros Hs. revert k. pattern s. revert s Hs. apply reachable_store_ind.
  - intros k. unfold Db.init, ACCOUNTS. simpl.
    rewrite !lookup_insert_is_Some, lookup_empty, is_Some_alt.
    intros H. repeat (destruct H as [<-|[_ H]]; [simpl; lia|]). done.
  - intros s u c d _ IH _ _ k. simpl.
    rewrite lookup_insert_is_Some. intros [<-|[_ H]]; [|by apply IH].
    apply length_new_account_id.
  - intros s u now f t fa ta a _ IH Hf Ht _ _ _ k. simpl.
    rewrite !lookup_insert_is_Some.
    intros [<-|[_ [<-|[_ H]]]]; apply IH; eauto.
Qed.

Lemma str_len_le s : (str_len s ≤ String.length s)%nat.
Proof.
  induction s as [|c s IH]; simpl; [done|].
  destruct (is_continuation_byte c); lia.
Qed.

(** X10.  In every reachable store an identifier in use has at most 12
    bytes, hence at most 12 characters: it is within the 36 characters that
    [TransferRequest] allows for an identifier. *)
Theorem identifiers_within_max_length s k :
  reachable s → is_Some (accounts s !! k) →
  (String.length k ≤ 12)%nat ∧ (str_len k ≤ 36)%nat.
Proof.
  intros Hs Hk.
  pose proof (reachable_identifier_length s k Hs Hk).
  pose proof (str_len_le k). lia.
Qed.

Lemma identifiers_within_max_length_witness :
  (String.length "acc-01234567" ≤ 12)%nat ∧ (str_len "acc-01234567" ≤ 36)%nat.
Proof.
  apply (identifiers_within_max_length
           (Routes.create_account uuid_a (mkAccountCreate 1 10050) Db.init).2
           "acc-01234567").
  - apply reachable_create, reachable_init.
  - eexists. vm_compute. reflexivity.
Defined.

(** ** Histories *)

Lemma filter_none {A} (P : A → Prop) `{!∀ x, Decision (P x)} (l : list A) :
  (∀ x, x ∈ l → ¬ P x) → filter P l = [].
Proof.
  induction l as [|x l IH]; intros Hl; [done|].
  rewrite filter_cons_False by (apply Hl, list_elem_of_here).
  apply IH. intros y Hy. by apply Hl, list_elem_of_further.
Qed.

(** X11.  In a reachable store, when [POST /accounts] returns an account
    under an identifier that was not in use, the transfer history of that
    account is empty. *)
Theorem new_account_has_empty_history s u body a s' :
  reachable s → accounts s !! new_account_id u = None →
  Routes.create_account u body s = (inr a, s') →
  Routes.get_transfer_history (account_id a) s' = (inr [], s').
Proof.
  intros Hs Hfresh Hc.
  destruct (route_create_account_cases u body s)
    as [[e He]|(_ & _ & Hok)]; [congruence|].
  rewrite Hok in Hc. injection Hc as <- <-. simpl.
  rewrite (proj2 (read_routes_aux _ _)). simpl. rewrite lookup_insert_eq.
  rewrite filter_none; [done|].
  intros t Ht [Hin|Hin];
    destruct (reachable_log_ok s t Hs Ht) as (_ & _ & [? Hf] & [? Hto]);
    congruence.
Qed.

Lemma new_account_has_empty_history_witness :
  Routes.get_transfer_history "acc-01234567"
    (Routes.create_account uuid_a (mkAccountCreate 1 10050) Db.init).2 =
  (inr [], (Routes.create_account uuid_a (mkAccountCreate 1 10050) Db.init).2).
Proof.
  apply (new_account_has_empty_history Db.init uuid_a (mkAccountCreate 1 10050)
           (mkAccountModel "acc-01234567" 1 10050)).
  - apply reachable_init.
  - reflexivity.
  - vm_compute. reflexivity.
Defined.

(** X12.  When [POST /transfers] returns a record, the transfer history of
    the sender and that of the receiver are what they were before, followed
    by that record; the history of every other account is what it was. *)
Theorem transfer_then_history u now body s tr s' :
  Routes.transfer_amount u now body s = (inr tr, s') →
  ∃ hf ht,
    Routes.get_transfer_history (tr_from_account_id body) s = (inr hf, s) ∧
    Routes.get_transfer_history (tr_to_account_id body) s = (inr ht, s) ∧
    Routes.get_transfer_history (tr_from_account_id body) s' =
      (inr (hf ++ [tr]), s') ∧
    Routes.get_transfer_history (tr_to_account_id body) s' =
      (inr (ht ++ [tr]), s') ∧
    ∀ k, k ≠ tr_from_account_id body → k ≠ tr_to_account_id body →
      (Routes.get_transfer_history k s').1 =
      (Routes.get_transfer_history k s).1.
Proof.
  intros Hx.
  destruct (route_transfer_amount_cases u now body s)
    as [[e He]|(fa & ta & Hf & Ht & Hft & _ & _ & Hok)]; [congruence|].
  rewrite Hok in Hx. injection Hx as <- <-.
  eexists _, _. rewrite !(proj2 (read_routes_aux _ _)). simpl.
  rewrite Hf, Ht, lookup_insert_eq.
  rewrite lookup_insert_ne, lookup_insert_eq by done.
  split_and!; [done|done| | |].
  - rewrite filter_app, filter_cons_True by (by left). done.
  - rewrite filter_app, filter_cons_True by (by right). done.
  - intros k Hkf Hkt. rewrite !(proj2 (read_routes_aux _ _)). simpl.
    rewrite !lookup_insert_ne by done.
    destruct (accounts s !! k); [|done].
    rewrite filter_app, filter_cons_False, filter_nil, app_nil_r; [done|].
    unfold Db.involves. simpl. by intros [|].
Qed.

Lemma transfer_then_history_witness :
  let body := mkTransferRequest "acc1-1234" "acc3-9012" 10000 in
  let s' := (Routes.transfer_amount uuid_a noon body Db.init).2 in
  let tr := mkTransfer (uuid_str uuid_a) "acc1-1234" "acc3-9012" 10000 noon in
  ∃ hf ht,
    Routes.get_transfer_history "acc1-1234" Db.init = (inr hf, Db.init) ∧
    Routes.get_transfer_history "acc3-9012" Db.init = (inr ht, Db.init) ∧
    Routes.get_transfer_history "acc1-1234" s' = (inr (hf ++ [tr]), s') ∧
    Routes.get_transfer_history "acc3-9012" s' = (inr (ht ++ [tr]), s') ∧
    ∀ k, k ≠ "acc1-1234" → k ≠ "acc3-9012" →
      (Routes.get_transfer_history k s').1 =
      (Routes.get_transfer_history k Db.init).1.
Proof.
  apply (transfer_then_history uuid_a noon
           (mkTransferRequest "acc1-1234" "acc3-9012" 10000) Db.init).
  vm_compute. reflexivity.
Defined.

(** ** The outcome of [POST /transfers] *)

(** X13.  On a reachable store the outcome of [POST /transfers] is decided
    by these tests, in this order: a body that fails the validation of the
    schema raises the validation error; equal identifiers raise
    [SelfTransferException]; a sender or a receiver that is not in use
    raises [AccountNotFoundException]; a stored balance of the sender below
    the amount raises [InsufficientFundsException]; otherwise the record of
    the transfer is returned, with the identifiers and the amount of the
    request.  Every failure leaves the store as it was.  The comparison of
    the two dicts in the service never decides a request that comes through
    the route. *)
Theorem transfer_route_outcome s u now body :
  reachable s →
  match validate_TransferRequest body with
  | inl e => Routes.transfer_amount u now body s = (inl e, s)
  | inr _ =>
      if decide (tr_from_account_id body = tr_to_account_id body) then
        Routes.transfer_amount u now body s = (inl SelfTransferException, s)
      else
        match accounts s !! tr_from_account_id body,
              accounts s !! tr_to_account_id body with
        | Some fa, Some ta =>
            if decide (acc_balance fa < tr_transfer_amount body) then
              Routes.transfer_amount u now body s =
                (inl InsufficientFundsException, s)
            else
              (Routes.transfer_amount u now body s).1 =
                inr (mkTransfer (uuid_str u) (tr_from_account_id body)
                       (tr_to_account_id body) (tr_transfer_amount body) now)
        | _, _ =>
            Routes.transfer_amount u now body s =
              (inl AccountNotFoundException, s)
        end
  end.
Proof.
  intros Hs. rewrite route_transfer_amount_unfold.
  destruct (validate_TransferRequest body); [done|].
  destruct (decide (tr_from_account_id body = tr_to_account_id body)) as [|Hne];
    [done|].
  rewrite execute_transfer_unfold.
  destruct (accounts s !! tr_from_account_id body) as [fa|] eqn:Hf; [|done].
  destruct (accounts s !! tr_to_account_id body) as [ta|] eqn:Ht; [|done].
  destruct (decide (fa = ta)) as [Heq|].
  { exfalso.
    exact (keyed_distinct (accounts s) _ _ fa ta (reachable_keyed s Hs)
             Hf Ht Hne Heq). }
  by destruct (decide (acc_balance fa < tr_transfer_amount body)).
Qed.

Lemma transfer_route_outcome_witness :
  Routes.transfer_amount uuid_a noon
    (mkTransferRequest "acc2-5678" "acc9-0000" 100) Db.init =
  (inl AccountNotFoundException, Db.init).
Proof.
  apply (transfer_route_outcome Db.init uuid_a noon
           (mkTransferRequest "acc2-5678" "acc9-0000" 100)).
  apply reachable_init.
Defined.

(** ** Exceptions and their handlers *)

(** X14.  An exception that leaves one of the four routes, on any store, is
    the validation error of a request schema or has a registered handler:
    [AccountNotFoundException] and [CustomerNotFoundException] are answered
    with status 404, [SelfTransferException] and
    [InsufficientFundsException] with status 400, each with the item
    [status: failure].  No route lets a [KeyError] escape. *)
Theorem route_exceptions_are_handled u now ab tb k s e :
  (Routes.create_account u ab s).1 = inl e ∨
  (Routes.transfer_amount u now tb s).1 = inl e ∨
  (Routes.get_balance k s).1 = inl e ∨
  (Routes.get_transfer_history k s).1 = inl e →
  e = ValidationError ∨
  ∃ r, exception_handler e = Some r ∧
       ("status", "failure") ∈ content r ∧
       (status_code r = 404 ∧
          (e = AccountNotFoundException ∨ e = CustomerNotFoundException)
        ∨ status_code r = 400 ∧
          (e = SelfTransferException ∨ e = InsufficientFundsException)).
Proof.
  assert (∀ e, e = AccountNotFoundException ∨ e = CustomerNotFoundException
               ∨ e = SelfTransferException ∨ e = InsufficientFundsException
               ∨ e = ValidationError →
            e = ValidationError ∨
            ∃ r, exception_handler e = Some r ∧
                 ("status", "failure") ∈ content r ∧
                 (status_code r = 404 ∧
                    (e = AccountNotFoundException
                     ∨ e = CustomerNotFoundException)
                  ∨ status_code r = 400 ∧
                    (e = SelfTransferException
                     ∨ e = InsufficientFundsException))) as Hh.
  { intros e' [->|[->|[->|[->| ->]]]]; [right..|by left];
      (eexists; split; [done|]; split; [apply list_elem_of_here|]);
      simpl; auto. }
  intros [H|[H|[H|H]]]; apply Hh.
  - rewrite route_create_account_unfold in H.
    repeat case_match; simpl in H; simplify_eq; auto.
  - rewrite route_transfer_amount_unfold in H.
    unfold validate_TransferRequest in H.
    destruct (_ && _ && _); simpl in H; [|simplify_eq; auto 10].
    destruct (decide _); simpl in H; [simplify_eq; auto|].
    rewrite execute_transfer_unfold in H.
    repeat case_match; simpl in H; simplify_eq; auto 10.
  - rewrite (proj1 (read_routes_aux _ _)) in H.
    destruct (accounts s !! k); simpl in H; simplify_eq; auto.
  - rewrite (proj2 (read_routes_aux _ _)) in H.
    destruct (accounts s !! k); simpl in H; simplify_eq; auto.
Qed.

Lemma route_exceptions_are_handled_witness :
  InsufficientFundsException = ValidationError ∨
  ∃ r, exception_handler InsufficientFundsException = Some r ∧
       ("status", "failure") ∈ content r ∧
       (status_code r = 404 ∧
          (InsufficientFundsException = AccountNotFoundException
           ∨ InsufficientFundsException = CustomerNotFoundException)
        ∨ status_code r = 400 ∧
          (InsufficientFundsException = SelfTransferException
           ∨ InsufficientFundsException = InsufficientFundsException)).
Proof.
  apply (route_exceptions_are_handled uuid_a noon (mkAccountCreate 1 10050)
           (mkTransferRequest "acc5-7890" "acc1-1234" 25001) "acc1-1234"
           Db.init InsufficientFundsException).
  right. left. vm_compute. reflexivity.
Defined.

(** ** The sum of the balances over the routes *)

Lemma total_balance_insert_fresh m k acc :
  m !! k = None →
  total_balance (<[k := acc]> m) = total_balance m + acc_balance acc.
Proof.
  intros Hk. unfold total_balance.
  rewrite map_fold_insert_L; [lia | intros; lia | done].
Qed.

(** X15.  When [POST /accounts] returns an account, the sum of all balances
    has grown by its deposit if the identifier was not in use; if it was,
    the balance stored under it before is replaced by the deposit. *)
Theorem create_account_total u body s a s' :
  Routes.create_account u body s = (inr a, s') →
  total_balance (accounts s') =
  total_balance (accounts s) - default 0 (balance_of s (account_id a))
  + ac_initial_deposit body.
Proof.
  intros Hc.
  destruct (route_create_account_cases u body s)
    as [[e He]|(_ & _ & Hok)]; [congruence|].
  rewrite Hok in Hc. injection Hc as <- <-. simpl. unfold balance_of.
  destruct (accounts s !! new_account_id u) as [old|] eqn:Hk; simpl.
  - by rewrite (total_balance_insert _ _ old).
  - rewrite total_balance_insert_fresh by done. simpl. lia.
Qed.

Lemma create_account_total_witness :
  total_balance
    (accounts (Routes.create_account uuid_a (mkAccountCreate 1 10050)
                 Db.init).2) =
  total_balance (accounts Db.init)
  - default 0 (balance_of Db.init "acc-01234567") + 10050.
Proof.
  apply (create_account_total uuid_a (mkAccountCreate 1 10050) Db.init
           (mkAccountModel "acc-01234567" 1 10050)).
  vm_compute. reflexivity.
Defined.

(** ** The accounts of a customer *)

(** X17.  [get_accounts_by_customer] never raises and never changes the
    store, also for a customer that does not exist; its result holds exactly
    the stored accounts whose customer is the one asked for. *)
Theorem accounts_by_customer_spec c s :
  ∃ l, Db.get_accounts_by_customer c s = (inr l, s) ∧
       ∀ acc, acc ∈ l ↔
              ∃ k, accounts s !! k = Some acc ∧ acc_customer_id acc = c.
Proof.
  eexists. split; [reflexivity|]. intros acc.
  rewrite list_elem_of_filter, list_elem_of_fmap. split.
  - intros [Hc ([k acc'] & -> & Hin)]. exists k.
    by apply elem_of_map_to_list in Hin.
  - intros (k & Hk & Hc). split; [done|]. exists (k, acc).
    split; [done|]. by apply elem_of_map_to_list.
Qed.

(** X18.  When the service creates an account under an identifier that was
    not in use, the accounts of its customer are those of before and the
    new one (in some order), and the accounts of every other customer are
    those of before. *)
Theorem create_account_extends_customer_accounts u c d s acc s' :
  accounts s !! new_account_id u = None →
  BankingService.create_account u c d s = (inr acc, s') →
  ∃ l l',
    Db.get_accounts_by_customer c s = (inr l, s) ∧
    Db.get_accounts_by_customer c s' = (inr l', s') ∧
    l' ≡ₚ acc :: l ∧
    ∀ c', c' ≠ c →
      ∃ m m', Db.get_accounts_by_customer c' s = (inr m, s) ∧
              Db.get_accounts_by_customer c' s' = (inr m', s') ∧
              m' ≡ₚ m.
Proof.
  intros Hfresh Hc. rewrite create_account_unfold in Hc.
  destruct (customers s !! c); [|done]. injection Hc as <- <-.
  eexists _, _. split; [reflexivity|]. split; [reflexivity|]. simpl.
  split.
  - rewrite map_to_list_insert by done. rewrite fmap_cons. simpl.
    by rewrite filter_cons_True.
  - intros c' Hne. eexists _, _. split; [reflexivity|].
    split; [reflexivity|]. simpl.
    rewrite map_to_list_insert by done. rewrite fmap_cons. simpl.
    by rewrite filter_cons_False.
Qed.

Lemma create_account_extends_customer_accounts_witness :
  ∃ l l',
    Db.get_accounts_by_customer 2 Db.init = (inr l, Db.init) ∧
    Db.get_accounts_by_customer 2
      (BankingService.create_account uuid_a 2 500 Db.init).2 =
      (inr l', (BankingService.create_account uuid_a 2 500 Db.init).2) ∧
    l' ≡ₚ new_account "acc-01234567" 2 500 :: l ∧
    ∀ c', c' ≠ 2 →
      ∃ m m', Db.get_accounts_by_customer c' Db.init = (inr m, Db.init) ∧
              Db.get_accounts_by_customer c'
                (BankingService.create_account uuid_a 2 500 Db.init).2 =
                (inr m', (BankingService.create_account uuid_a 2 500
                            Db.init).2) ∧
              m' ≡ₚ m.
Proof.
  apply (create_account_extends_customer_accounts uuid_a 2 500 Db.init
           (new_account "acc-01234567" 2 500)).
  - reflexivity.
  - vm_compute. reflexivity.
Defined.

(** ** Transaction identifiers *)

Ltac explode_hex h H :=
  repeat (destruct h as [|? h]; [simpl in H; lia|]);
  destruct h; [|simpl in H; lia].

Lemma uuid_str_inj u u' :
  String.length (hex u) = 32%nat → String.length (hex u') = 32%nat →
  uuid_str u = uuid_str u' → u = u'.
Proof.
  destruct u as [h], u' as [h']. simpl. intros H H' Heq.
  explode_hex h H. explode_hex h' H'.
  cbv [uuid_str hex String.substring String.append] in Heq.
  by simplify_eq.
Qed.

(** X19.  Two transfers that return, made with UUIDs of 32 hexadecimal
    digits that differ, are recorded under transaction identifiers that
    differ. *)
Theorem transaction_ids_differ u u' now now' f f' t t' a a' s1 s2 tr tr' s1' s2' :
  String.length (hex u) = 32%nat → String.length (hex u') = 32%nat →
  u ≠ u' →
  BankingService.execute_transfer u now f t a s1 = (inr tr, s1') →
  BankingService.execute_transfer u' now' f' t' a' s2 = (inr tr', s2') →
  transaction_id tr ≠ transaction_id tr'.
Proof.
  intros Hu Hu' Hne H1 H2.
  apply execute_transfer_inv in H1 as (? & ? & _ & _ & _ & _ & _ & -> & _).
  apply execute_transfer_inv in H2 as (? & ? & _ & _ & _ & _ & _ & -> & _).
  simpl. intros Heq. by apply Hne, uuid_str_inj.
Qed.

Lemma transaction_ids_differ_witness :
  transaction_id (mkTransfer (uuid_str uuid_a) "acc1-1234" "acc2-5678" 100 noon)
  ≠ transaction_id
      (mkTransfer (uuid_str uuid_b) "acc1-1234" "acc2-5678" 100 noon).
Proof.
  apply (transaction_ids_differ uuid_a uuid_b noon noon
           "acc1-1234" "acc1-1234" "acc2-5678" "acc2-5678" 100 100
           Db.init Db.init
           (mkTransfer (uuid_str uuid_a) "acc1-1234" "acc2-5678" 100 noon)
           (mkTransfer (uuid_str uuid_b) "acc1-1234" "acc2-5678" 100 noon)
           (BankingService.execute_transfer uuid_a noon "acc1-1234"
              "acc2-5678" 100 Db.init).2
           (BankingService.execute_transfer uuid_b noon "acc1-1234"
              "acc2-5678" 100 Db.init).2).
  - reflexivity.
  - reflexivity.
  - discriminate.
  - vm_compute. reflexivity.
  - vm_compute. reflexivity.
Defined.

(** ** The store and the service on an unknown customer *)

(** X20.  [Database.create_account] does not look at the customers: for a
    customer that does not exist it still returns an account and stores it,
    whereas [BankingService.create_account] raises on the same arguments
    and stores nothing. *)
Theorem store_does_not_check_customer u c d s :
  customers s !! c = None →
  (∃ acc s', Db.create_account u c d s = (inr acc, s') ∧
             accounts s' !! new_account_id u = Some acc ∧
             acc_customer_id acc = c ∧
             customers s' !! acc_customer_id acc = None) ∧
  BankingService.create_account u c d s = (inl CustomerNotFoundException, s).
Proof.
  intros Hc. split.
  - eexists _, _. split; [reflexivity|]. simpl.
    by rewrite lookup_insert_eq.
  - by rewrite create_account_unfold, Hc.
Qed.

Lemma store_does_not_check_customer_witness :
  (∃ acc s', Db.create_account uuid_a 999 100 Db.init = (inr acc, s') ∧
             accounts s' !! new_account_id uuid_a = Some acc ∧
             acc_customer_id acc = 999 ∧
             customers s' !! acc_customer_id acc = None) ∧
  BankingService.create_account uuid_a 999 100 Db.init =
    (inl CustomerNotFoundException, Db.init).
Proof.
  apply (store_does_not_check_customer uuid_a 999 100 Db.init).
  reflexivity.
Defined.

(** ** The outcome of [get_transfers_by_customer] *)

(** The two shapes of account dicts are the only ones in a reachable
    store. *)
Lemma reachable_shapes s k acc :
  reachable s → accounts s !! k = Some acc →
  (acc_id acc = Some k ∧ acc_account_id acc = None) ∨
  (acc_id acc = None ∧ acc_account_id acc = Some k).
Proof.
  intros Hs. revert k acc.
  apply (reachable_accounts_ind
           (λ m, ∀ k acc, m !! k = Some acc →
                   (acc_id acc = Some k ∧ acc_account_id acc = None) ∨
                   (acc_id acc = None ∧ acc_account_id acc = Some k)));
    [| | |done].
  - intros k acc H. unfold ACCOUNTS in H.
    repeat (rewrite lookup_insert in H; case_decide;
            [simplify_eq; by left|]).
    by rewrite lookup_empty in H.
  - intros m u c d IH _ k acc. rewrite lookup_insert.
    case_decide; [intros; simplify_eq; by right|]. apply IH.
  - intros m f t fa ta a IH Hf Ht _ _ _ k acc. rewrite !lookup_insert.
    repeat case_decide; intros; simplify_eq; simpl; eauto.
Qed.

(** X22.  On a reachable store [get_transfers_by_customer] has three
    outcomes and never changes the store: for a customer that does not
    exist it raises [AccountNotFoundException]; for a customer with an
    account that lacks the key ["id"] it raises [KeyError]; for any other
    customer it returns the records of the log whose sender or receiver is
    one of the customer's accounts, in the order of the log. *)
Theorem customer_history_outcome c s :
  reachable s →
  Db.get_transfers_by_customer c s =
  (if decide (customers s !! c = None) then inl AccountNotFoundException
   else if decide (Exists (λ acc, acc_customer_id acc = c ∧ acc_id acc = None)
                     (map_to_list (accounts s)).*2)
        then inl (KeyError "id")
        else inr (customer_transfers s c),
   s).
Proof.
  intros Hs.
  destruct (decide (customers s !! c = None)) as [Hc|Hc].
  { by apply get_transfers_by_customer_absent. }
  assert (is_Some (customers s !! c)) as Hsome
    by (by destruct (customers s !! c); [eexists|]).
  destruct (decide _) as [Hex|Hnone].
  - apply Exists_exists in Hex as (acc & Hin & Hcust & Hid).
    apply list_elem_of_fmap in Hin as ([k acc'] & -> & Hin).
    apply elem_of_map_to_list in Hin.
    by eapply get_transfers_by_customer_raises.
  - apply get_transfers_by_customer_seed_shape;
      [done|by apply reachable_keyed|].
    intros k acc Hk Hcust.
    destruct (reachable_shapes s k acc Hs Hk) as [[_ ?]|[Hid _]]; [done|].
    exfalso. apply Hnone, Exists_exists. exists acc. split_and!; [|done..].
    apply list_elem_of_fmap. exists (k, acc). split; [done|].
    by apply elem_of_map_to_list.
Qed.

Lemma customer_history_outcome_witness :
  Db.get_transfers_by_customer 2 Db.init = (inr TRANSFERS, Db.init).
Proof.
  apply (customer_history_outcome 2 Db.init). apply reachable_init.
Defined.

(** * Balances as doubles *)

(** ** Running the methods on doubles *)

Ltac drun :=
  unfold Double.BankingService.execute_transfer,
    Double.BankingService.create_account, Double.Db.create_account,
    Double.Db.update_balance, Double.Db.add_transfer, Double.Db.get_account,
    Double.Db.get_customer, Double.with_lock, Double.accounts_setitem,
    Double.balance_iadd, Double.transfers_append,
    mbind, Double.M_bind, mret, Double.M_ret, Double.raise, Double.gets,
    Double.modify, Double.emit; simpl.

Lemma double_update_balance_unfold k d s :
  Double.Db.update_balance k d s =
  match Double.accounts s !! k with
  | Some acc =>
      (inr (),
       {| Double.customers := Double.customers s;
          Double.accounts :=
            <[k := Double.with_balance acc (Double.acc_balance acc + d)%float]>
              (Double.accounts s);
          Double.transfers := Double.transfers s;
          Double.trace := Double.trace s ++ [WriteBalance k] |})
  | None => (inr (), s)
  end.
Proof. drun. by destruct (Double.accounts s !! k). Qed.

(** The four outcomes of [execute_transfer], by the checks in their order. *)
Lemma double_execute_transfer_unfold u now f t a s :
  Double.BankingService.execute_transfer u now f t a s =
  match Double.accounts s !! f, Double.accounts s !! t with
  | None, _ => (inl AccountNotFoundException, s)
  | Some _, None => (inl AccountNotFoundException, s)
  | Some fa, Some ta =>
      if Double.dict_eq (bool_decide (f = t)) fa ta then
        (inl SelfTransferException, s)
      else if (Double.acc_balance fa <? a)%float then
        (inl InsufficientFundsException, s)
      else let tr := Double.mkTransfer (uuid_str u) f t a now in
           (inr tr, Double.transferred s f t fa ta a tr)
  end.
Proof.
  drun.
  destruct (Double.accounts s !! f) as [fa|] eqn:Hf; [|done].
  destruct (Double.accounts s !! t) as [ta|] eqn:Ht; [|done].
  destruct (Double.dict_eq (bool_decide (f = t)) fa ta) eqn:Heq; [done|].
  destruct (Double.acc_balance fa <? a)%float; [done|].
  simpl. rewrite Hf. simpl.
  assert (f ≠ t) as Hft.
  { intros ->. unfold Double.dict_eq in Heq.
    by rewrite bool_decide_eq_true_2 in Heq. }
  rewrite lookup_insert_ne by done. rewrite Ht. simpl.
  unfold Double.transferred. repeat rewrite <- app_assoc. done.
Qed.

(** A transfer that returns went through all the checks. *)
Lemma double_execute_transfer_inv u now f t a s tr s' :
  Double.BankingService.execute_transfer u now f t a s = (inr tr, s') →
  ∃ fa ta,
    Double.accounts s !! f = Some fa ∧ Double.accounts s !! t = Some ta ∧
    f ≠ t ∧ (Double.acc_balance fa <? a)%float = false ∧
    tr = Double.mkTransfer (uuid_str u) f t a now ∧
    s' = Double.transferred s f t fa ta a tr.
Proof.
  rewrite double_execute_transfer_unfold.
  destruct (Double.accounts s !! f) as [fa|] eqn:Hf; [|done].
  destruct (Double.accounts s !! t) as [ta|] eqn:Ht; [|done].
  destruct (Double.dict_eq (bool_decide (f = t)) fa ta) eqn:Heq; [done|].
  destruct (Double.acc_balance fa <? a)%float eqn:Hlt; [done|].
  simpl. intros [= <- <-]. exists fa, ta. split_and!; try done.
  intros ->. unfold Double.dict_eq in Heq.
  by rewrite bool_decide_eq_true_2 in Heq.
Qed.

Lemma double_create_account_unfold u c d s :
  Double.BankingService.create_account u c d s =
  match Double.customers s !! c with
  | None => (inl CustomerNotFoundException, s)
  | Some _ =>
      (inr (Double.new_account (new_account_id u) c d),
       {| Double.customers := Double.customers s;
          Double.accounts :=
            <[new_account_id u := Double.new_account (new_account_id u) c d]>
              (Double.accounts s);
          Double.transfers := Double.transfers s;
          Double.trace :=
            Double.trace s
            ++ [Acquire; WriteAccounts (new_account_id u); Release] |})
  end.
Proof.
  drun. destruct (Double.customers s !! c); [|done].
  simpl. repeat rewrite <- app_assoc. done.
Qed.

(** ** Distinct identifiers hold distinct dicts *)

Lemma double_keyed_ACCOUNTS : Double.keyed Double.ACCOUNTS.
Proof.
  intros k acc H. unfold Double.ACCOUNTS in H.
  repeat (rewrite lookup_insert in H; case_decide; [by simplify_eq|]).
  by rewrite lookup_empty in H.
Qed.

Lemma double_keyed_insert m k acc :
  Double.keyed m → Double.ident acc = Some k → Double.keyed (<[k := acc]> m).
Proof.
  intros Hm Hacc j acc'. rewrite lookup_insert.
  case_decide; [by intros; simplify_eq|]. apply Hm.
Qed.

Lemma double_reachable_keyed s :
  Double.reachable s → Double.keyed (Double.accounts s).
Proof.
  induction 1 as [|s u c d Hs IH|s u now f t a Hs IH].
  - apply double_keyed_ACCOUNTS.
  - rewrite double_create_account_unfold.
    destruct (Double.customers s !! c); [|done].
    simpl. by apply double_keyed_insert.
  - destruct (Double.BankingService.execute_transfer u now f t a s)
      as [[e|tr] s'] eqn:Hx; simpl.
    + rewrite double_execute_transfer_unfold in Hx.
      repeat case_match; by simplify_eq.
    + apply double_execute_transfer_inv in Hx
        as (fa & ta & Hf & Ht & _ & _ & _ & ->).
      simpl. apply double_keyed_insert; [apply double_keyed_insert; [done|]|].
      * by apply (IH f fa).
      * by apply (IH t ta).
Qed.

Lemma double_dict_eq_distinct m A B accA accB :
  Double.keyed m → m !! A = Some accA → m !! B = Some accB → A ≠ B →
  Double.dict_eq (bool_decide (A = B)) accA accB = false.
Proof.
  intros Hm HA HB Hne. unfold Double.dict_eq.
  rewrite bool_decide_eq_false_2 by done. simpl.
  apply Hm in HA, HB. unfold Double.ident in HA, HB.
  destruct (bool_decide (Double.acc_id accA = Double.acc_id accB)) eqn:H1;
    [|done].
  destruct (bool_decide
              (Double.acc_account_id accA = Double.acc_account_id accB))
    eqn:H2; [|done].
  apply bool_decide_eq_true in H1, H2. rewrite H1, H2 in HA. congruence.
Qed.

(** ** The exact sum of the balances *)

Lemma total_units_insert m k acc acc' :
  m !! k = Some acc →
  Double.total_units (<[k := acc']> m) =
  Double.total_units m - Double.units (Double.acc_balance acc)
  + Double.units (Double.acc_balance acc').
Proof.
  intros Hk. unfold Double.total_units.
  rewrite <- (insert_delete_eq m k acc').
  rewrite map_fold_insert_L; [| intros; lia | apply lookup_delete_eq].
  rewrite (map_fold_delete_L _ _ k acc m); [lia | intros; lia | done].
Qed.

(** ** Transfers on doubles *)

(** C1 (as stated, refuted).  On the seeded store the transfer of 0.06 from
    [acc1-1234] (balance 1000.00) to [acc5-7890] (balance 250.00) returns
    its record, but the balance of the sender becomes the double nearest to
    999.94, which is not 1000 less the amount, and the balance of the
    receiver the double nearest to 250.06, which is not 250 plus the amount:
    neither the exact differences nor the differences computed on doubles
    equal the amount. *)
Lemma C1_counterexample :
  let a := 0.06%float in
  let r := Double.BankingService.execute_transfer uuid_a noon
             "acc1-1234" "acc5-7890" a Double.Db.init in
  Double.balance_of Double.Db.init "acc1-1234" = Some 1000%float ∧
  Double.balance_of Double.Db.init "acc5-7890" = Some 250%float ∧
  (a <=? 1000)%float = true ∧
  r.1 = inr (Double.mkTransfer (uuid_str uuid_a) "acc1-1234" "acc5-7890"
               a noon) ∧
  Double.balance_of r.2 "acc1-1234" = Some 999.94%float ∧
  Double.balance_of r.2 "acc5-7890" = Some 250.06%float ∧
  Double.units 1000 - Double.units 999.94 ≠ Double.units a ∧
  Double.units 250.06 - Double.units 250 ≠ Double.units a ∧
  (1000 - 999.94 =? a)%float = false ∧
  (250.06 - 250 =? a)%float = false.
Proof.
  split_and!; try (vm_compute; reflexivity);
    apply Z.eqb_neq; vm_compute; reflexivity.
Qed.

(** C1 (amended).  In every reachable store, for two existing accounts with
    different identifiers [A] and [B] and an amount [a] for which the test
    [A.balance < a] is false, [execute_transfer] returns a transfer record;
    afterwards the balance of [A] is the double [A.balance + (-a)] and the
    balance of [B] the double [B.balance + a] (each the exact result rounded
    to the nearest double), no other account has changed, and the log has
    grown by exactly that one record, whose amount is [a], sender [A] and
    receiver [B]. *)
Theorem C1_transfer_moves_rounded_amount s u now A B accA accB a :
  Double.reachable s → A ≠ B →
  Double.accounts s !! A = Some accA → Double.accounts s !! B = Some accB →
  (Double.acc_balance accA <? a)%float = false →
  ∃ tr s',
    Double.BankingService.execute_transfer u now A B a s = (inr tr, s') ∧
    Double.balance_of s' A = Some (Double.acc_balance accA + - a)%float ∧
    Double.balance_of s' B = Some (Double.acc_balance accB + a)%float ∧
    (∀ k, k ≠ A → k ≠ B → Double.accounts s' !! k = Double.accounts s !! k) ∧
    Double.transfers s' = Double.transfers s ++ [tr] ∧
    Double.transfer_amount tr = a ∧
    Double.from_account_id tr = A ∧ Double.to_account_id tr = B.
Proof.
  intros Hs Hne HA HB Hlt.
  eexists _, _. split.
  { rewrite double_execute_transfer_unfold, HA, HB, Hlt.
    by rewrite (double_dict_eq_distinct (Double.accounts s) A B accA accB)
      by eauto using double_reachable_keyed. }
  unfold Double.balance_of. simpl.
  split; [|split; [|split; [|done]]].
  - rewrite lookup_insert_ne by done. by rewrite lookup_insert_eq.
  - by rewrite lookup_insert_eq.
  - intros k HkA HkB. by rewrite !lookup_insert_ne.
Qed.

Lemma C1_witness :
  ∃ tr s',
    Double.BankingService.execute_transfer uuid_a noon "acc1-1234"
      "acc2-5678" 100%float Double.Db.init = (inr tr, s') ∧
    Double.balance_of s' "acc1-1234" = Some (1000 + - 100)%float ∧
    Double.balance_of s' "acc2-5678" = Some (500 + 100)%float ∧
    (∀ k, k ≠ "acc1-1234" → k ≠ "acc2-5678" →
       Double.accounts s' !! k = Double.accounts Double.Db.init !! k) ∧
    Double.transfers s' = Double.transfers Double.Db.init ++ [tr] ∧
    Double.transfer_amount tr = 100%float ∧
    Double.from_account_id tr = "acc1-1234" ∧
    Double.to_account_id tr = "acc2-5678".
Proof.
  apply (C1_transfer_moves_rounded_amount Double.Db.init uuid_a noon
           "acc1-1234" "acc2-5678"
           (Double.seed_account "acc1-1234" 1 1000)
           (Double.seed_account "acc2-5678" 2 500) 100%float).
  - apply Double.reachable_init.
  - discriminate.
  - reflexivity.
  - reflexivity.
  - vm_compute. reflexivity.
Defined.

(** C3 (as stated, refuted).  On the seeded store the transfer of 0.06 from
    [acc1-1234] to [acc5-7890] returns its record and the exact sum of the
    balances of all accounts is not what it was. *)
Lemma C3_counterexample :
  let r := Double.BankingService.execute_transfer uuid_a noon
             "acc1-1234" "acc5-7890" 0.06%float Double.Db.init in
  r.1 = inr (Double.mkTransfer (uuid_str uuid_a) "acc1-1234" "acc5-7890"
               0.06%float noon) ∧
  Double.total_units (Double.accounts r.2) ≠
  Double.total_units (Double.accounts Double.Db.init).
Proof.
  split; [vm_compute; reflexivity|].
  apply Z.eqb_neq. vm_compute. reflexivity.
Qed.

(** C3 (amended).  A call of [execute_transfer] that returns, from [f]
    with balance [bf] to [t] with balance [bt], changes the exact sum of the
    balances of all accounts by the two rounding errors: by what the double
    [bf + (-a)] differs from [bf] plus what the double [bt + a] differs from
    [bt].  The debit and the credit are of the same amount [a], so the sum
    is as it was whenever both additions are exact. *)
Theorem C3_total_changes_by_rounding u now f t a s tr s' fa ta :
  Double.BankingService.execute_transfer u now f t a s = (inr tr, s') →
  Double.accounts s !! f = Some fa → Double.accounts s !! t = Some ta →
  Double.total_units (Double.accounts s') =
    Double.total_units (Double.accounts s)
    + (Double.units (Double.acc_balance fa + - a)
       - Double.units (Double.acc_balance fa))
    + (Double.units (Double.acc_balance ta + a)
       - Double.units (Double.acc_balance ta)) ∧
  (Double.units (Double.acc_balance fa + - a) =
     Double.units (Double.acc_balance fa) - Double.units a →
   Double.units (Double.acc_balance ta + a) =
     Double.units (Double.acc_balance ta) + Double.units a →
   Double.total_units (Double.accounts s') =
     Double.total_units (Double.accounts s)).
Proof.
  intros Hx Hf Ht. apply double_execute_transfer_inv in Hx
    as (fa' & ta' & Hf' & Ht' & Hft & _ & _ & ->).
  rewrite Hf in Hf'. rewrite Ht in Ht'.
  injection Hf' as <-. injection Ht' as <-. simpl.
  rewrite (total_units_insert _ t ta) by by rewrite lookup_insert_ne.
  rewrite (total_units_insert _ f fa) by done.
  simpl. split; [lia|]. intros -> ->. lia.
Qed.

Lemma C3_witness :
  Double.total_units
    (Double.accounts
       (Double.BankingService.execute_transfer uuid_a noon "acc1-1234"
          "acc2-5678" 100%float Double.Db.init).2) =
  Double.total_units (Double.accounts Double.Db.init).
Proof.
  apply (proj2 (C3_total_changes_by_rounding uuid_a noon "acc1-1234"
                  "acc2-5678" 100%float Double.Db.init
                  (Double.mkTransfer (uuid_str uuid_a) "acc1-1234"
                     "acc2-5678" 100%float noon)
                  (Double.BankingService.execute_transfer uuid_a noon
                     "acc1-1234" "acc2-5678" 100%float Double.Db.init).2
                  (Double.seed_account "acc1-1234" 1 1000)
                  (Double.seed_account "acc2-5678" 2 500)
                  ltac:(vm_compute; reflexivity)
                  ltac:(reflexivity) ltac:(reflexivity)));
    vm_compute; reflexivity.
Defined.

(** ** [update_balance] on doubles *)

(** X1.  [update_balance] never raises, never adds or removes an account
    and leaves the customers, the log and every other account as they were;
    the balance under the identifier becomes the double [balance + amount].
    On an identifier that is not in use it is silent and the store is
    exactly as before. *)
Theorem update_balance_frame k d s :
  ∃ s',
    Double.Db.update_balance k d s = (inr (), s') ∧
    dom (Double.accounts s') = dom (Double.accounts s) ∧
    (∀ j, j ≠ k → Double.accounts s' !! j = Double.accounts s !! j) ∧
    Double.balance_of s' k = (λ b, (b + d)%float) <$> Double.balance_of s k ∧
    Double.customers s' = Double.customers s ∧
    Double.transfers s' = Double.transfers s ∧
    (Double.accounts s !! k = None → s' = s).
Proof.
  rewrite double_update_balance_unfold. unfold Double.balance_of.
  destruct (Double.accounts s !! k) as [acc|] eqn:Hk.
  - eexists. split; [done|]. simpl. split_and!; try done.
    + apply set_eq. intros j. rewrite !elem_of_dom, lookup_insert.
      case_decide; [subst; by rewrite Hk|done].
    + intros j Hj. by rewrite lookup_insert_ne.
    + by rewrite lookup_insert_eq.
  - exists s. by rewrite Hk.
Qed.

(** ** Two checks of the models against Python *)

(** A character outside ASCII counts once, whatever the number of its
    bytes. *)
Example str_len_counts_characters :
  str_len "€" = 1%nat ∧ String.length "€" = 3%nat ∧
  str_len "acc1-1234" = 9%nat.
Proof. vm_compute. done. Qed.

(** After a deposit of 0.30, two transfers of 0.10 leave
    0.09999999999999998, so a third transfer of 0.10 is refused. *)
Example third_transfer_is_refused :
  let s0 := (Double.BankingService.create_account uuid_a 1 0.30%float
               Double.Db.init).2 in
  let s1 := (Double.BankingService.execute_transfer uuid_a noon
               "acc-01234567" "acc2-5678" 0.10%float s0).2 in
  let s2 := (Double.BankingService.execute_transfer uuid_b noon
               "acc-01234567" "acc2-5678" 0.10%float s1).2 in
  Double.balance_of s2 "acc-01234567" = Some 0.09999999999999998%float ∧
  Double.BankingService.execute_transfer uuid_a noon
    "acc-01234567" "acc2-5678" 0.10%float s2 =
    (inl InsufficientFundsException, s2).
Proof. vm_compute. done. Qed.
